(** * Emotion detection service: shallow embedding and verified properties

    The development embeds [EmotionDetection/emotion_detection.py] and the
    request handler of [server.py].

    - Python [str] values are sequences of Unicode code points.
    - Python [float] values are IEEE 754 binary64 numbers, modelled with the
      executable specification of the Standard Library ([SpecFloat], with
      precision 53 and maximal exponent 1024).
    - Python exceptions are values of an error monad; the remote call and the
      invocation of the keyword heuristic are recorded in a trace.
    - Built-ins whose tables are not part of the repository ([str.lower],
      [float] applied to a string, [repr] of floats and containers) are
      section variables: every theorem holds for any behaviour of them. *)

From Stdlib Require Import ZArith NArith List Bool String Ascii Lia QArith Qabs.
From Stdlib Require Import Floats.SpecFloat.
Import ListNotations.

Set Warnings "-register-all".

Local Open Scope string_scope.
Local Open Scope list_scope.
Local Open Scope Z_scope.

(** ** Python strings *)

Module PyStr.

(** A Python string is a list of code points. *)
Definition pystr := list N.

(** The string denoted by a literal of the source. *)
Definition lit (s : string) : pystr :=
  map N_of_ascii (list_ascii_of_string s).

Fixpoint eqb (a b : pystr) : bool :=
  match a, b with
  | [], [] => true
  | x :: a', y :: b' => (x =? y)%N && eqb a' b'
  | _, _ => false
  end.

(** Truth value of a string: only the empty string is false. *)
Definition truthy (s : pystr) : bool :=
  match s with
  | [] => false
  | _ :: _ => true
  end.

(** [str.isspace] on one character: the code points CPython classifies as
    whitespace (bidirectional type WS, B or S, or category Zs). *)
Definition isspace (c : N) : bool :=
  (((9 <=? c) && (c <=? 13)) ||
   ((28 <=? c) && (c <=? 32)) ||
   (c =? 133) || (c =? 160) || (c =? 5760) ||
   ((8192 <=? c) && (c <=? 8202)) ||
   (c =? 8232) || (c =? 8233) || (c =? 8239) || (c =? 8287) ||
   (c =? 12288))%N.

Fixpoint lstrip (s : pystr) : pystr :=
  match s with
  | [] => []
  | c :: s' => if isspace c then lstrip s' else s
  end.

Definition rstrip (s : pystr) : pystr := rev (lstrip (rev s)).

(** [s.strip()]: leading and trailing whitespace removed. *)
Definition strip (s : pystr) : pystr := rstrip (lstrip s).

Fixpoint startswith (w s : pystr) : bool :=
  match w, s with
  | [], _ => true
  | _ :: _, [] => false
  | a :: w', b :: s' => (a =? b)%N && startswith w' s'
  end.

(** [w in s]: [w] occurs as a substring of [s]. *)
Fixpoint contains (w s : pystr) : bool :=
  startswith w s ||
  match s with
  | [] => false
  | _ :: s' => contains w s'
  end.

(** Lower-casing of the ASCII letters only.  It agrees with [str.lower] on
    ASCII text and is used to run the model on concrete inputs. *)
Definition ascii_lower (s : pystr) : pystr :=
  map (fun c => if ((65 <=? c) && (c <=? 90))%N then (c + 32)%N else c) s.

End PyStr.
Import PyStr.

(** ** Python floats: IEEE 754 binary64 *)

Module PyFloat.

Definition float := spec_float.

Definition prec : Z := 53.
Definition emax : Z := 1024.

Definition fadd : float -> float -> float := SFadd prec emax.
Definition fdiv : float -> float -> float := SFdiv prec emax.
Definition feqb : float -> float -> bool := SFeqb.
Definition fltb : float -> float -> bool := SFltb.
Definition fleb : float -> float -> bool := SFleb.

(** [a > b] *)
Definition fgtb (a b : float) : bool := fltb b a.

(** The float nearest to an integer (round to nearest, ties to even);
    the result is an infinity when the integer is out of range. *)
Definition of_Z (n : Z) : float := binary_normalize prec emax n 0 false.

Definition of_nat (n : nat) : float := of_Z (Z.of_nat n).

(** The decimal literal [n/d] of the source: the float nearest to the
    rational it denotes. *)
Definition dec (n d : Z) : float := fdiv (of_Z n) (of_Z d).

Definition zero : float := S754_zero false.
Definition one : float := of_Z 1.

Definition is_nan (f : float) : bool :=
  match f with
  | S754_nan => true
  | _ => false
  end.

Definition is_finite (f : float) : bool :=
  match f with
  | S754_zero _ | S754_finite _ _ _ => true
  | S754_infinity _ | S754_nan => false
  end.

Definition is_zero (f : float) : bool :=
  match f with
  | S754_zero _ => true
  | _ => false
  end.

(** Exact rational value of a finite float (0 for the others). *)
Definition to_Q (f : float) : Q :=
  match f with
  | S754_finite s m e => (inject_Z (cond_Zopp s (Zpos m)) * Qpower 2 e)%Q
  | _ => 0%Q
  end.

End PyFloat.
Import PyFloat.

(** ** Python values, exceptions and dictionaries *)

Module Py.

(** The exceptions the modelled code can meet.  All of them derive from
    [Exception], so [except Exception] catches each one. *)
Inductive exn : Type :=
| KeyError
| IndexError
| TypeError
| ValueError
| AttributeError
| OverflowError
| ZeroDivisionError
| JSONDecodeError
| RequestException
| BadRequestKeyError.

(** Values: what [json.loads] produces, and what the result dictionaries
    hold. *)
Inductive pyval : Type :=
| PNone
| PBool (b : bool)
| PInt (n : Z)
| PFloat (f : float)
| PStr (s : pystr)
| PList (l : list pyval)
| PDict (d : list (pystr * pyval)).

(** Fallible pure computations. *)
Definition Res (A : Type) : Type := (exn + A)%type.

(** A dictionary with string keys, in insertion order. *)
Definition dict (V : Type) : Type := list (pystr * V).

Fixpoint lookup {V} (d : dict V) (k : pystr) : option V :=
  match d with
  | [] => None
  | (k', v) :: d' => if PyStr.eqb k' k then Some v else lookup d' k
  end.

(** [d[k] = v]: an existing key keeps its position, a new key is added
    last. *)
Fixpoint setitem {V} (d : dict V) (k : pystr) (v : V) : dict V :=
  match d with
  | [] => [(k, v)]
  | (k', v') :: d' =>
      if PyStr.eqb k' k then (k', v) :: d' else (k', v') :: setitem d' k v
  end.

(** [d[k]] *)
Definition getitem {V} (d : dict V) (k : pystr) : Res V :=
  match lookup d k with
  | Some v => inr v
  | None => inl KeyError
  end.

Definition keys {V} (d : dict V) : list pystr := map fst d.
Definition values {V} (d : dict V) : list V := map snd d.

(** [d.get(k)] on a dictionary of values. *)
Definition get (d : dict pyval) (k : pystr) : pyval :=
  match lookup d k with
  | Some v => v
  | None => PNone
  end.

(** [v[k]] for a string [k]. *)
Definition subscript_str (v : pyval) (k : pystr) : Res pyval :=
  match v with
  | PDict d => getitem d k
  | _ => inl TypeError
  end.

(** [v[i]] for an integer [i]. *)
Definition subscript_int (v : pyval) (i : Z) : Res pyval :=
  match v with
  | PList l =>
      let n := Z.of_nat (List.length l) in
      let j := if i <? 0 then i + n else i in
      if (0 <=? j) && (j <? n)
      then match nth_error l (Z.to_nat j) with
           | Some x => inr x
           | None => inl IndexError
           end
      else inl IndexError
  | PStr s =>
      let n := Z.of_nat (List.length s) in
      let j := if i <? 0 then i + n else i in
      if (0 <=? j) && (j <? n)
      then match nth_error s (Z.to_nat j) with
           | Some c => inr (PStr [c])
           | None => inl IndexError
           end
      else inl IndexError
  | PDict _ => inl KeyError
  | _ => inl TypeError
  end.

(** [v.get(k, default)]: only dictionaries have the method. *)
Definition method_get (v : pyval) (k : pystr) (default : pyval) : Res pyval :=
  match v with
  | PDict d =>
      match lookup d k with
      | Some x => inr x
      | None => inr default
      end
  | _ => inl AttributeError
  end.

(** [float(n)] for an integer. *)
Definition float_of_int (n : Z) : Res float :=
  let f := of_Z n in
  if is_finite f then inr f else inl OverflowError.

(** [request.form[k]]: a missing field raises. *)
Definition form_field (form : dict pystr) (k : pystr) : Res pystr :=
  match lookup form k with
  | Some s => inr s
  | None => inl BadRequestKeyError
  end.

(** [x is None] *)
Definition is_none (v : pyval) : bool :=
  match v with
  | PNone => true
  | _ => false
  end.

(** [v == n] for an integer [n]; a float is compared by its exact value. *)
Definition eq_int (v : pyval) (n : Z) : bool :=
  match v with
  | PInt m => m =? n
  | PBool b => (if b then 1 else 0) =? n
  | PFloat f => is_finite f && Qeq_bool (to_Q f) (inject_Z n)
  | _ => false
  end.

(** [a / b] on floats. *)
Definition truediv (a b : float) : Res float :=
  if is_zero b then inl ZeroDivisionError else inr (fdiv a b).

(** [max(d, key=d.get)]: the keys are visited in insertion order and the
    candidate is replaced only by a key whose value is strictly greater. *)
Fixpoint max_from (best : pystr * float) (rest : dict float) : pystr :=
  match rest with
  | [] => fst best
  | (k, v) :: rest' =>
      if fgtb v (snd best) then max_from (k, v) rest' else max_from best rest'
  end.

Definition max_key (d : dict float) : Res pystr :=
  match d with
  | [] => inl ValueError
  | kv :: rest => inr (max_from kv rest)
  end.

(** [sum(d.values())]: the integer start value 0 becomes 0.0 at the first
    addition.  (The partial sums met here are small integers, hence
    exact.) *)
Definition sum_values (d : dict float) : float :=
  fold_left fadd (values d) zero.

End Py.
Import Py.

(** ** Effects: exceptions and a trace of calls *)

Module Eff.

(** A request as [requests.post] receives it. *)
Record request : Type := mkRequest {
  req_url : pystr;
  req_headers : dict pystr;
  req_json : pyval;
  req_timeout : Z
}.

(** A response: its status code and what [resp.json()] does. *)
Record response : Type := mkResponse {
  status_code : Z;
  json : Res pyval
}.

Inductive event : Type :=
| EvPost (r : request)
| EvRuleBased (text : pystr).

Definition trace := list event.

(** Computations that may raise and that extend the trace. *)
Definition M (A : Type) : Type := trace -> Res A * trace.

Definition ret {A} (x : A) : M A := fun t => (inr x, t).

Definition raise {A} (e : exn) : M A := fun t => (inl e, t).

Definition bind {A B} (m : M A) (f : A -> M B) : M B :=
  fun t =>
    match m t with
    | (inr x, t') => f x t'
    | (inl e, t') => (inl e, t')
    end.

Definition lift {A} (r : Res A) : M A := fun t => (r, t).

Definition log (e : event) : M unit := fun t => (inr tt, t ++ [e]).

(** [try: x = body / except Exception: handler / else: rest x] *)
Definition try_else {A B} (body : M A) (rest : A -> M B) (handler : M B)
  : M B :=
  fun t =>
    match body t with
    | (inr x, t') => rest x t'
    | (inl _, t') => handler t'
    end.

(** [try: body / except Exception: handler] *)
Definition try_except {A} (body : M A) (handler : M A) : M A :=
  try_else body ret handler.

Definition run {A} (m : M A) : Res A * trace := m [].

(** Number of remote calls, and of invocations of the heuristic, that a
    trace records. *)
Definition remote_calls (t : trace) : nat :=
  List.length
    (filter (fun e => match e with EvPost _ => true | _ => false end) t).

Definition heuristic_calls (t : trace) : nat :=
  List.length
    (filter (fun e => match e with EvRuleBased _ => true | _ => false end) t).

End Eff.
Import Eff.

Declare Scope eff_scope.
Delimit Scope eff_scope with eff.
Notation "x <- m ;; k" := (Eff.bind m (fun x => k))
  (at level 61, m at next level, right associativity) : eff_scope.
Notation "m ;;; k" := (Eff.bind m (fun _ => k))
  (at level 61, right associativity) : eff_scope.

(** Sequencing of fallible pure computations. *)
Definition rbind {A B} (r : Res A) (f : A -> Res B) : Res B :=
  match r with
  | inr x => f x
  | inl e => inl e
  end.

Declare Scope res_scope.
Delimit Scope res_scope with res.
Notation "x <- m ;; k" := (rbind m (fun x => k))
  (at level 61, m at next level, right associativity) : res_scope.

(** ** EmotionDetection/emotion_detection.py *)

Definition WATSON_URL : pystr :=
  lit ("https://sn-watson-emotion.labs.skills.network/v1/watson.runtime.nlp.v1/"
       ++ "NlpService/EmotionPredict").

Definition WATSON_HEADERS : dict pystr :=
  [(lit "grpc-metadata-mm-model-id",
    lit "emotion_aggregated-workflow_lang_en_stock")].

(** The dictionaries the detector returns. *)
Definition result : Type := dict pyval.

(** The None-values dict required for blank/400 responses. *)
Definition _none_result : result :=
  [(lit "anger", PNone);
   (lit "disgust", PNone);
   (lit "fear", PNone);
   (lit "joy", PNone);
   (lit "sadness", PNone);
   (lit "dominant_emotion", PNone);
   (lit "status_code", PInt 400)].

(** The keyword tuples of the five loops of [_rule_based_detector]. *)
Definition anger_words : list pystr :=
  map lit ["angry"; "mad"; "hate"; "furious"; "annoy"].
Definition disgust_words : list pystr :=
  map lit ["disgust"; "disgusted"; "gross"].
Definition fear_words : list pystr :=
  map lit ["afraid"; "scared"; "fear"; "terrified"].
Definition joy_words : list pystr :=
  map lit ["happy"; "glad"; "love"; "joy"; "excited"].
Definition sadness_words : list pystr :=
  map lit ["sad"; "unhappy"; "depressed"; "sorrow"].

(** [for w in words: if w in text_l: buckets[name] += 1.0] *)
Definition count_words (text_l name : pystr) (words : list pystr)
  (buckets : dict float) : Res (dict float) :=
  fold_left
    (fun acc w =>
       (b <- acc ;;
        if contains w text_l
        then (v <- getitem b name ;; inr (setitem b name (fadd v one)))
        else inr b)%res)
    words (inr buckets).

(** [{k: v / total for k, v in buckets.items()}] *)
Fixpoint normalize (buckets : dict float) (total : float)
  : Res (dict float) :=
  match buckets with
  | [] => inr []
  | (k, v) :: rest =>
      (q <- truediv v total ;;
       rest' <- normalize rest total ;;
       inr ((k, q) :: rest'))%res
  end.

(** The two assignments [out["dominant_emotion"] = dom] and
    [out["status_code"] = 200] on a dictionary of scores. *)
Definition finish (out : dict float) (dom : pystr) : result :=
  let out := map (fun kv => (fst kv, PFloat (snd kv))) out in
  let out := setitem out (lit "dominant_emotion") (PStr dom) in
  setitem out (lit "status_code") (PInt 200).

(** The request [emotion_detector] sends. *)
Definition watson_request (text_to_analyze : pystr) : request :=
  mkRequest WATSON_URL WATSON_HEADERS
    (PDict [(lit "raw_document", PDict [(lit "text", PStr text_to_analyze)])])
    8.

Section Detector.

(** [str.lower] *)
Variable str_lower : pystr -> pystr.

(** [float] applied to a string: [None] when it raises [ValueError]. *)
Variable str_to_float : pystr -> option float.

(** The behaviour of the remote service: what [requests.post] does with a
    request (an exception, or a response). *)
Variable remote : request -> Res response.

(** Body of [_rule_based_detector]. *)
Definition rule_based_scores (text : pystr) : Res result :=
  (let text_l := str_lower text in
   let buckets :=
     [(lit "anger", zero);
      (lit "disgust", zero);
      (lit "fear", zero);
      (lit "joy", zero);
      (lit "sadness", zero)] in
   buckets <- count_words text_l (lit "anger") anger_words buckets ;;
   buckets <- count_words text_l (lit "disgust") disgust_words buckets ;;
   buckets <- count_words text_l (lit "fear") fear_words buckets ;;
   buckets <- count_words text_l (lit "joy") joy_words buckets ;;
   buckets <- count_words text_l (lit "sadness") sadness_words buckets ;;
   let total := sum_values buckets in
   if feqb total (of_Z 0)
   then
     let out :=
       [(lit "anger", dec 1 10);
        (lit "disgust", dec 5 100);
        (lit "fear", dec 5 100);
        (lit "joy", dec 6 10);
        (lit "sadness", dec 2 10)] in
     dom <- max_key out ;;
     inr (finish out dom)
   else
     out <- normalize buckets total ;;
     dom <- max_key out ;;
     inr (finish out dom))%res.

(** Simple keyword-based fallback detector (normalized scores).  Its
    invocation is recorded in the trace. *)
Definition _rule_based_detector (text : pystr) : M result :=
  (log (EvRuleBased text) ;;;
   lift (rule_based_scores text))%eff.

(** [requests.post(WATSON_URL, headers=..., json=..., timeout=8)] *)
Definition requests_post (r : request) : M response :=
  fun t => (remote r, t ++ [EvPost r]).

(** [float(v)] *)
Definition py_float (v : pyval) : Res float :=
  match v with
  | PFloat f => inr f
  | PInt n => float_of_int n
  | PBool b => inr (if b then one else zero)
  | PStr s =>
      match str_to_float s with
      | Some f => inr f
      | None => inl ValueError
      end
  | PNone | PList _ | PDict _ => inl TypeError
  end.

(** [float(emotions.get(name, 0.0))] *)
Definition emotion_score (emotions : pyval) (name : pystr) : Res float :=
  (v <- method_get emotions name (PFloat zero) ;; py_float v)%res.

(** The body of the inner [try] of [emotion_detector]: parse the payload
    of a 200 response. *)
Definition parse_response (resp : response) : Res result :=
  (j <- json resp ;;
   predictions <- subscript_str j (lit "emotionPredictions") ;;
   prediction <- subscript_int predictions 0 ;;
   emotions <- subscript_str prediction (lit "emotion") ;;
   anger <- emotion_score emotions (lit "anger") ;;
   disgust <- emotion_score emotions (lit "disgust") ;;
   fear <- emotion_score emotions (lit "fear") ;;
   joy <- emotion_score emotions (lit "joy") ;;
   sadness <- emotion_score emotions (lit "sadness") ;;
   let out :=
     [(lit "anger", anger);
      (lit "disgust", disgust);
      (lit "fear", fear);
      (lit "joy", joy);
      (lit "sadness", sadness)] in
   dom <- max_key out ;;
   inr (finish out dom))%res.

(** Detect emotions for given text. *)
Definition emotion_detector (text_to_analyze : pystr) : M result :=
  (if negb (truthy text_to_analyze) || negb (truthy (strip text_to_analyze))
   then ret _none_result
   else
     try_else (requests_post (watson_request text_to_analyze))
       (fun resp =>
          if status_code resp =? 400 then ret _none_result
          else if status_code resp =? 200 then
            try_except (lift (parse_response resp))
              (out <- _rule_based_detector text_to_analyze ;;
               ret (setitem out (lit "status_code") (PInt 200)))
          else
            out <- _rule_based_detector text_to_analyze ;;
            ret (setitem out (lit "status_code") (PInt 200)))
       (out <- _rule_based_detector text_to_analyze ;;
        ret (setitem out (lit "status_code") (PInt 200))))%eff.

End Detector.

(** ** server.py *)

Definition INVALID_TEXT : pystr := lit "Invalid text! Please try again!".

Section Server.

Variable str_lower : pystr -> pystr.
Variable str_to_float : pystr -> option float.
Variable remote : request -> Res response.

(** [repr] *)
Variable py_repr : pyval -> pystr.

(** [str(v)], which is what an f-string field inserts. *)
Definition py_str (v : pyval) : pystr :=
  match v with
  | PStr s => s
  | _ => py_repr v
  end.

(** The f-string of [detect_emotion]. *)
Definition render (anger disgust fear joy sadness dominant : pyval) : pystr :=
  lit "For the given statement, the system response is 'anger': "
  ++ py_str anger ++ lit ", "
  ++ lit "'disgust': " ++ py_str disgust
  ++ lit ", 'fear': " ++ py_str fear ++ lit ", "
  ++ lit "'joy': " ++ py_str joy
  ++ lit " and 'sadness': " ++ py_str sadness ++ lit ". "
  ++ lit "The dominant emotion is " ++ py_str dominant ++ lit ".".

(** API route to detect emotions from user input; [form] is
    [request.form]. *)
Definition detect_emotion (form : dict pystr) : M pystr :=
  (raw <- lift (form_field form (lit "text")) ;;
   let text_to_analyze := strip raw in
   response <- emotion_detector str_lower str_to_float remote text_to_analyze ;;
   if eq_int (get response (lit "status_code")) 400
   then ret INVALID_TEXT
   else
     dominant <- lift (getitem response (lit "dominant_emotion")) ;;
     if is_none dominant
     then ret INVALID_TEXT
     else
       anger <- lift (getitem response (lit "anger")) ;;
       disgust <- lift (getitem response (lit "disgust")) ;;
       fear <- lift (getitem response (lit "fear")) ;;
       joy <- lift (getitem response (lit "joy")) ;;
       sadness <- lift (getitem response (lit "sadness")) ;;
       dominant <- lift (getitem response (lit "dominant_emotion")) ;;
       ret (render anger disgust fear joy sadness dominant))%eff.

End Server.

(** ** Vocabulary of the specification *)

Module Spec.

(** The five emotion fields, in declaration order. *)
Definition names : list pystr :=
  map lit ["anger"; "disgust"; "fear"; "joy"; "sadness"].

(** The input is empty or consists only of whitespace. *)
Definition blank (text : pystr) : bool := forallb isspace text.

(** The outcome class of a result: [status_code] 400 is "rejected",
    200 is "ok". *)
Definition rejected (r : result) : bool :=
  match lookup r (lit "status_code") with
  | Some (PInt 400) => true
  | _ => false
  end.

Definition ok (r : result) : bool :=
  match lookup r (lit "status_code") with
  | Some (PInt 200) => true
  | _ => false
  end.

(** A field is absent: the key is bound to [None]. *)
Definition absent (r : result) (k : pystr) : bool :=
  match lookup r k with
  | Some PNone => true
  | _ => false
  end.

(** All five scores and the dominant emotion are absent. *)
Definition no_scores (r : result) : bool :=
  forallb (absent r) (names ++ [lit "dominant_emotion"]).

(** The score stored under a field, when it is a float. *)
Definition score (r : result) (k : pystr) : option float :=
  match lookup r k with
  | Some (PFloat f) => Some f
  | _ => None
  end.

(** The dominant emotion, when it is a string. *)
Definition dominant (r : result) : option pystr :=
  match lookup r (lit "dominant_emotion") with
  | Some (PStr s) => Some s
  | _ => None
  end.

(** An ok result with the given scores and dominant emotion. *)
Definition ok_result (anger disgust fear joy sadness : float)
  (dom : pystr) : result :=
  [(lit "anger", PFloat anger);
   (lit "disgust", PFloat disgust);
   (lit "fear", PFloat fear);
   (lit "joy", PFloat joy);
   (lit "sadness", PFloat sadness);
   (lit "dominant_emotion", PStr dom);
   (lit "status_code", PInt 200)].

(** The five scores paired with their names, in declaration order. *)
Definition fields (anger disgust fear joy sadness : float) : dict float :=
  [(lit "anger", anger);
   (lit "disgust", disgust);
   (lit "fear", fear);
   (lit "joy", joy);
   (lit "sadness", sadness)].

(** A float is finite and non-negative. *)
Definition finite_nonneg (f : float) : bool := is_finite f && fleb zero f.

(** Number of the listed keywords that occur in the lower-cased text. *)
Definition keyword_count (text_l : pystr) (words : list pystr) : nat :=
  List.length (filter (fun w => contains w text_l) words).

(** All the keywords of the heuristic. *)
Definition all_words : list pystr :=
  anger_words ++ disgust_words ++ fear_words ++ joy_words ++ sadness_words.

(** Some keyword occurs in the lower-cased text. *)
Definition any_keyword (text_l : pystr) : bool :=
  existsb (fun w => contains w text_l) all_words.

(** The fixed default distribution. *)
Definition default_result : result :=
  ok_result (dec 10 100) (dec 5 100) (dec 5 100) (dec 60 100) (dec 20 100)
    (lit "joy").

(** [m] is the maximum of the scores: no score is above [m] and some score
    equals it. *)
Definition is_max (scores : dict float) (m : float) : bool :=
  forallb (fun kv => fleb (snd kv) m) scores
  && existsb (fun kv => feqb (snd kv) m) scores.


(** The first field, in order, whose score equals [m]. *)
Fixpoint first_with (scores : dict float) (m : float) : option pystr :=
  match scores with
  | [] => None
  | (k, v) :: rest => if feqb v m then Some k else first_with rest m
  end.

(** [k] is an argmax of the scores: no score is above the score of [k]. *)
Definition argmax (scores : dict float) (k : pystr) : bool :=
  match lookup scores k with
  | Some m => forallb (fun kv => fleb (snd kv) m) scores
  | None => false
  end.

(** No score is NaN. *)
Definition no_nan (scores : dict float) : bool :=
  forallb (fun kv => negb (is_nan (snd kv))) scores.

(** The five scores of a result, when all are floats. *)
Definition scores_of (r : result) : option (dict float) :=
  match score r (lit "anger"), score r (lit "disgust"),
        score r (lit "fear"), score r (lit "joy"),
        score r (lit "sadness") with
  | Some a, Some d, Some f, Some j, Some s => Some (fields a d f j s)
  | _, _, _, _, _ => None
  end.

(** The invariant of ok results: five scores that are finite and
    non-negative, and a dominant emotion among the five names. *)
Definition well_formed (r : result) : bool :=
  match scores_of r, dominant r with
  | Some scores, Some dom =>
      forallb (fun kv => finite_nonneg (snd kv)) scores
      && existsb (PyStr.eqb dom) names
  | _, _ => false
  end.

(** The emotion object of a payload of the documented form
    [{"emotionPredictions": [{"emotion": {...}}, ...]}]. *)
Definition emotions_of (j : pyval) : option (dict pyval) :=
  match j with
  | PDict top =>
      match lookup top (lit "emotionPredictions") with
      | Some (PList (PDict first :: _)) =>
          match lookup first (lit "emotion") with
          | Some (PDict emotions) => Some emotions
          | _ => None
          end
      | _ => None
      end
  | _ => None
  end.

(** The value a payload supplies for a field, converted by [to_float]; a
    missing field counts as 0.0.  [None] when the conversion fails. *)
Definition supplied (to_float : pyval -> Res float) (emotions : dict pyval)
  (k : pystr) : option float :=
  match lookup emotions k with
  | None => Some zero
  | Some v =>
      match to_float v with
      | inr f => Some f
      | inl _ => None
      end
  end.

(** The five scores of a parseable body. *)
Definition payload_scores (to_float : pyval -> Res float) (body : Res pyval)
  : option (dict float) :=
  match body with
  | inl _ => None
  | inr j =>
      match emotions_of j with
      | None => None
      | Some em =>
          match supplied to_float em (lit "anger"),
                supplied to_float em (lit "disgust"),
                supplied to_float em (lit "fear"),
                supplied to_float em (lit "joy"),
                supplied to_float em (lit "sadness") with
          | Some a, Some d, Some f, Some j, Some s => Some (fields a d f j s)
          | _, _, _, _, _ => None
          end
      end
  end.

(** What the remote call amounts to for the classifier. *)
Inductive remote_outcome : Type :=
| TransportError
| BadRequest
| Success (scores : dict float)
| ParseFailure
| OtherStatus.

Definition classify (to_float : pyval -> Res float) (o : Res response)
  : remote_outcome :=
  match o with
  | inl _ => TransportError
  | inr resp =>
      if status_code resp =? 400 then BadRequest
      else if status_code resp =? 200 then
        match payload_scores to_float (json resp) with
        | Some scores => Success scores
        | None => ParseFailure
        end
      else OtherStatus
  end.

(** The remote call fails: transport error, a status other than 200 and
    400, or a parse failure. *)
Definition failed (c : remote_outcome) : bool :=
  match c with
  | TransportError | ParseFailure | OtherStatus => true
  | BadRequest | Success _ => false
  end.

(** The sentence of the web layer: the five scores in the fixed order,
    then the dominant emotion. *)
Definition sentence (str : pyval -> pystr)
  (anger disgust fear joy sadness dominant : pyval) : pystr :=
  lit "For the given statement, the system response is "
  ++ lit "'anger': " ++ str anger
  ++ lit ", 'disgust': " ++ str disgust
  ++ lit ", 'fear': " ++ str fear
  ++ lit ", 'joy': " ++ str joy
  ++ lit " and 'sadness': " ++ str sadness
  ++ lit ". The dominant emotion is " ++ str dominant ++ lit ".".

(** Exact sum of the values of five floats. *)
Definition exact_sum (a b c d e : float) : Q :=
  (to_Q a + to_Q b + to_Q c + to_Q d + to_Q e)%Q.

(** The sum of five floats as the left-to-right float additions compute
    it. *)
Definition float_sum (a b c d e : float) : float :=
  fadd (fadd (fadd (fadd a b) c) d) e.

(** The seven keys of a result, in the order the code inserts them. *)
Definition result_keys : list pystr :=
  names ++ [lit "dominant_emotion"; lit "status_code"].

(** The keyword counts of the five categories, in declaration order. *)
Definition counts (text_l : pystr) : list (pystr * nat) :=
  [(lit "anger", keyword_count text_l anger_words);
   (lit "disgust", keyword_count text_l disgust_words);
   (lit "fear", keyword_count text_l fear_words);
   (lit "joy", keyword_count text_l joy_words);
   (lit "sadness", keyword_count text_l sadness_words)].

(** The largest of the counts. *)
Definition max_count (cs : list (pystr * nat)) : nat :=
  fold_right (fun kv m => Nat.max (snd kv) m) 0%nat cs.

(** The first category, in order, whose count equals [m]. *)
Fixpoint first_with_count (cs : list (pystr * nat)) (m : nat)
  : option pystr :=
  match cs with
  | [] => None
  | (k, c) :: rest => if (c =? m)%nat then Some k else first_with_count rest m
  end.

(** The keywords that occur are those of category [k] only, and at least
    one of them does. *)
Definition only_category (text_l k : pystr) : bool :=
  existsb (PyStr.eqb k) names
  && forallb (fun kv => if PyStr.eqb (fst kv) k
                        then negb (snd kv =? 0)%nat
                        else (snd kv =? 0)%nat)
       (counts text_l).

(** The same keywords occur in both lower-cased texts. *)
Definition same_keywords (text_l text_l' : pystr) : bool :=
  forallb (fun w => Bool.eqb (contains w text_l) (contains w text_l'))
    all_words.

End Spec.

(** ** The heuristic on keyword counts *)

Module Heuristic.

(** [n] successive [+= 1.0] on a counter. *)
Fixpoint add_ones (v : float) (n : nat) : float :=
  match n with
  | O => v
  | S n' => add_ones (fadd v one) n'
  end.

(** The five normalized scores for given keyword counts. *)
Definition scores (ca cd cf cj cs : nat) : dict float :=
  let total := of_nat (ca + cd + cf + cj + cs) in
  Spec.fields (fdiv (of_nat ca) total) (fdiv (of_nat cd) total)
    (fdiv (of_nat cf) total) (fdiv (of_nat cj) total)
    (fdiv (of_nat cs) total).

(** An ok result built from scores: the dominant emotion is the key [max]
    selects. *)
Definition ranked (scores : dict float) : result :=
  match scores with
  | kv :: rest => finish (kv :: rest) (max_from kv rest)
  | [] => []
  end.

(** The result of the heuristic for given keyword counts. *)
Definition outcome (ca cd cf cj cs : nat) : result :=
  if (ca + cd + cf + cj + cs =? 0)%nat
  then Spec.default_result
  else ranked (scores ca cd cf cj cs).

(** The result of the heuristic on a text, given [str.lower]. *)
Definition on_text (str_lower : pystr -> pystr) (text : pystr) : result :=
  let text_l := str_lower text in
  outcome (Spec.keyword_count text_l anger_words)
    (Spec.keyword_count text_l disgust_words)
    (Spec.keyword_count text_l fear_words)
    (Spec.keyword_count text_l joy_words)
    (Spec.keyword_count text_l sadness_words).

(** The numbers [0 .. n]. *)
Definition upto (n : nat) : list nat := seq 0 (S n).

(** A test on every vector of counts the keyword lists allow. *)
Definition on_grid (p : nat -> nat -> nat -> nat -> nat -> bool) : bool :=
  forallb (fun ca =>
  forallb (fun cd =>
  forallb (fun cf =>
  forallb (fun cj =>
  forallb (fun cs => p ca cd cf cj cs)
    (upto (List.length sadness_words)))
    (upto (List.length joy_words)))
    (upto (List.length fear_words)))
    (upto (List.length disgust_words)))
    (upto (List.length anger_words)).

(** [2 ^ -54] *)
Definition eps54 : Q := 1 # (2 ^ 54).

(** [1 - 2 ^ -52] and [1 + 2 ^ -52]: the second float below 1.0 and the
    first above it. *)
Definition below_one : float := S754_finite false 9007199254740990 (-53).
Definition above_one : float := S754_finite false 4503599627370497 (-52).

(** The numeric facts about the normalized scores: each is finite and
    non-negative, their exact sum is within [2 ^ -54] of 1, and their
    float sum is within [2 ^ -52] of 1.0. *)
Definition well_normalized (scores : dict float) : bool :=
  match values scores with
  | [a; d; f; j; s] =>
      forallb Spec.finite_nonneg [a; d; f; j; s]
      && Qle_bool (Qabs (Spec.exact_sum a d f j s - 1)) eps54
      && fleb below_one (Spec.float_sum a d f j s)
      && fleb (Spec.float_sum a d f j s) above_one
  | _ => false
  end.

End Heuristic.

(** ** The handler as the specification words it *)

Section StatedHandler.

Variable str_lower : pystr -> pystr.
Variable str_to_float : pystr -> option float.
Variable remote : request -> Res response.
Variable py_repr : pyval -> pystr.

(** The response for a result of the classifier: the fixed message for a
    rejected result, the sentence otherwise. *)
Definition respond (r : result) : pystr :=
  if Spec.rejected r then INVALID_TEXT
  else
    Spec.sentence (py_str py_repr)
      (get r (lit "anger")) (get r (lit "disgust")) (get r (lit "fear"))
      (get r (lit "joy")) (get r (lit "sadness"))
      (get r (lit "dominant_emotion")).

(** The classifier is called on the text of the form field as it is. *)
Definition handler_as_stated (form : dict pystr) : M pystr :=
  (text <- lift (form_field form (lit "text")) ;;
   response <- emotion_detector str_lower str_to_float remote text ;;
   ret (respond response))%eff.

End StatedHandler.

(** ** Concrete behaviours, to run the model *)

Module Sample.

(** A [float] that accepts no string. *)
Definition no_float : pystr -> option float := fun _ => None.

(** A [repr] that prints every value alike. *)
Definition repr_any : pyval -> pystr := fun _ => lit "<value>".

(** The remote service cannot be reached. *)
Definition unreachable : request -> Res response :=
  fun _ => inl RequestException.

(** The remote service answers every request with the same response. *)
Definition answers (code : Z) (body : Res pyval) : request -> Res response :=
  fun _ => inr (mkResponse code body).

(** A payload of the documented form around an emotion object. *)
Definition payload (emotions : dict pyval) : pyval :=
  PDict [(lit "emotionPredictions",
          PList [PDict [(lit "emotion", PDict emotions)]])].

(** The text a request carries. *)
Definition text_of (r : request) : pystr :=
  match req_json r with
  | PDict [(_, PDict [(_, PStr s)])] => s
  | _ => []
  end.

(** The remote service rejects a text with surrounding whitespace and
    cannot be reached for any other. *)
Definition rejects_padding : request -> Res response :=
  fun r =>
    if PyStr.eqb (strip (text_of r)) (text_of r)
    then inl RequestException
    else inr (mkResponse 400 (inl JSONDecodeError)).

(** [-0.5] *)
Definition minus_half : float := S754_finite true 4503599627370496 (-53).

End Sample.

(** * Properties *)

(** ** Strings *)

Lemma pystr_eqb_refl (a : pystr) : PyStr.eqb a a = true.
Proof.
  induction a as [|x a IH]; simpl; [reflexivity|].
  now rewrite N.eqb_refl, IH.
Qed.

Lemma pystr_eqb_eq (a b : pystr) : PyStr.eqb a b = true <-> a = b.
Proof.
  split.
  - revert b; induction a as [|x a IH]; intros [|y b]; simpl; try discriminate.
    + reflexivity.
    + intros H. apply andb_true_iff in H as [Hx Hab].
      apply N.eqb_eq in Hx. apply IH in Hab. now subst.
  - intros ->. apply pystr_eqb_refl.
Qed.

Lemma lstrip_nil_iff (s : pystr) : lstrip s = [] <-> forallb isspace s = true.
Proof.
  induction s as [|c s IH]; simpl.
  - tauto.
  - destruct (isspace c); simpl.
    + exact IH.
    + split; discriminate.
Qed.

Lemma forallb_rev {A} (p : A -> bool) (l : list A) :
  forallb p (rev l) = forallb p l.
Proof.
  induction l as [|x l IH]; simpl; [reflexivity|].
  rewrite forallb_app, IH. simpl. rewrite andb_true_r. apply andb_comm.
Qed.

Lemma lstrip_forallb (s : pystr) :
  forallb isspace (lstrip s) = forallb isspace s.
Proof.
  induction s as [|c s IH]; simpl; [reflexivity|].
  destruct (isspace c) eqn:Hc; simpl; [exact IH|].
  now rewrite Hc.
Qed.

(** Stripping leaves nothing exactly when the string is blank. *)
Lemma strip_truthy (s : pystr) : truthy (strip s) = negb (Spec.blank s).
Proof.
  unfold strip, rstrip, Spec.blank.
  destruct (forallb isspace s) eqn:Hb; simpl.
  - apply lstrip_nil_iff in Hb. rewrite Hb. reflexivity.
  - destruct (rev (lstrip (rev (lstrip s)))) as [|c r] eqn:Hr; [|reflexivity].
    exfalso.
    apply (f_equal (@rev N)) in Hr. rewrite rev_involutive in Hr. simpl in Hr.
    apply lstrip_nil_iff in Hr.
    rewrite forallb_rev, lstrip_forallb in Hr. congruence.
Qed.

(** The guard of [emotion_detector] is the blank test. *)
Lemma guard_blank (s : pystr) :
  negb (truthy s) || negb (truthy (strip s)) = Spec.blank s.
Proof.
  rewrite strip_truthy, negb_involutive.
  destruct s as [|c s]; simpl; reflexivity.
Qed.

Lemma strip_idempotent_blank (s : pystr) :
  Spec.blank (strip s) = Spec.blank s.
Proof.
  unfold strip, rstrip, Spec.blank.
  rewrite forallb_rev, lstrip_forallb, forallb_rev, lstrip_forallb.
  reflexivity.
Qed.

Lemma startswith_spec (w s : pystr) :
  startswith w s = true <-> exists q, s = w ++ q.
Proof.
  revert s; induction w as [|a w IH]; intros s; simpl.
  - split; [intros _; now exists s | reflexivity].
  - destruct s as [|b s].
    + split; [discriminate | intros [q Hq]; discriminate].
    + rewrite andb_true_iff, N.eqb_eq, IH. split.
      * intros [-> [q ->]]. now exists q.
      * intros [q [= -> ->]]. split; [reflexivity | now exists q].
Qed.

(** [w in s] holds exactly when [w] is a substring of [s]. *)
Lemma contains_spec (w s : pystr) :
  contains w s = true <-> exists p q, s = p ++ w ++ q.
Proof.
  induction s as [|c s IH]; simpl; rewrite orb_true_iff, startswith_spec.
  - split.
    + intros [[q Hq] | H]; [|discriminate]. now exists [], q.
    + intros [p [q H]]. left.
      destruct p; [now exists q | discriminate].
  - rewrite IH. split.
    + intros [[q Hq] | [p [q ->]]]; [now exists [], q | now exists (c :: p), q].
    + intros [[|c' p] [q H]].
      * left. now exists q.
      * right. injection H as -> ->. now exists p, q.
Qed.

(** ** Order on floats *)

Ltac float_cases :=
  repeat match goal with
         | s : bool |- _ => destruct s
         end;
  simpl in *; try congruence; try reflexivity.

Ltac order_cases :=
  repeat match goal with
         | |- context [Pos.compare_cont Eq ?a ?b] =>
             change (Pos.compare_cont Eq a b) with (Pos.compare a b)
         | H : context [Pos.compare_cont Eq ?a ?b] |- _ =>
             change (Pos.compare_cont Eq a b) with (Pos.compare a b) in H
         | |- context [Z.compare ?a ?b] => destruct (Z.compare_spec a b)
         | H : context [Z.compare ?a ?b] |- _ => destruct (Z.compare_spec a b)
         | |- context [Pos.compare ?a ?b] => destruct (Pos.compare_spec a b)
         | H : context [Pos.compare ?a ?b] |- _ =>
             destruct (Pos.compare_spec a b)
         end;
  simpl in *; subst; try congruence; try reflexivity; try lia.

Ltac float_order :=
  unfold fgtb, fltb, fleb, feqb, SFltb, SFleb, SFeqb;
  repeat match goal with
         | x : float |- _ => destruct x
         end;
  simpl; try discriminate; float_cases; order_cases.

Lemma fleb_trans (x y z : float) :
  fleb x y = true -> fleb y z = true -> fleb x z = true.
Proof. float_order. Qed.

Lemma fltb_fleb_trans (x y z : float) :
  fltb x y = true -> fleb y z = true -> fltb x z = true.
Proof. float_order. Qed.

Lemma fleb_total (x y : float) :
  is_nan x = false -> is_nan y = false -> fleb x y = true \/ fleb y x = true.
Proof.
  unfold fleb, SFleb.
  destruct x, y; simpl; try discriminate; intros _ _;
    float_cases; try (now left); try (now right); order_cases;
    try (now left); try (now right).
Qed.

Lemma fleb_not_fltb (x y : float) : fleb x y = true -> fltb y x = false.
Proof. float_order. Qed.

Lemma fltb_fleb (x y : float) : fltb x y = true -> fleb x y = true.
Proof. float_order. Qed.

Lemma feqb_fleb (x y : float) : feqb x y = true -> fleb y x = true.
Proof. float_order. Qed.

Lemma fleb_neq_fltb (x y : float) :
  fleb x y = true -> feqb x y = false -> fltb x y = true.
Proof. float_order. Qed.

Lemma fleb_refl_feqb (x : float) : fleb x x = true -> feqb x x = true.
Proof. float_order. Qed.

Lemma fleb_refl (x : float) : is_nan x = false -> fleb x x = true.
Proof. float_order. Qed.

Lemma fleb_not_nan (x y : float) : fleb x y = true -> is_nan x = false.
Proof. destruct x, y; simpl; try discriminate; reflexivity. Qed.

(** ** The key that [max] selects *)

Lemma max_from_in (best : pystr * float) (rest : dict float) :
  In (max_from best rest) (fst best :: keys rest).
Proof.
  revert best; induction rest as [|[k v] rest IH]; intros best; simpl.
  - now left.
  - destruct (fgtb v (snd best)).
    + specialize (IH (k, v)). simpl in IH. tauto.
    + specialize (IH best). simpl in IH. tauto.
Qed.

(** With a maximum [m] among the values, [max] selects the first key whose
    value equals [m]. *)
Lemma max_from_first (m : float) (rest : dict float) :
  forall best : pystr * float,
    fleb (snd best) m = true ->
    (forall k v, In (k, v) rest -> fleb v m = true) ->
    Spec.first_with (best :: rest) m <> None ->
    Spec.first_with (best :: rest) m = Some (max_from best rest).
Proof.
  induction rest as [|[k v] rest IH]; intros [kb vb] Hb Hrest Hex; simpl in *.
  - destruct (feqb vb m); [reflexivity | congruence].
  - assert (Hv : fleb v m = true) by (apply (Hrest k); now left).
    assert (Hrest' : forall k' v', In (k', v') rest -> fleb v' m = true)
      by (intros k' v' Hin; apply (Hrest k'); now right).
    destruct (feqb vb m) eqn:Evb.
    + assert (Hgt : fgtb v vb = false).
      { apply fleb_not_fltb. apply fleb_trans with m; [exact Hv|].
        now apply feqb_fleb. }
      rewrite Hgt.
      specialize (IH (kb, vb) Hb Hrest'). simpl in IH. rewrite Evb in IH.
      apply IH. discriminate.
    + destruct (feqb v m) eqn:Ev.
      * assert (Hgt : fgtb v vb = true).
        { unfold fgtb. apply fltb_fleb_trans with m.
          - now apply fleb_neq_fltb.
          - now apply feqb_fleb. }
        rewrite Hgt.
        specialize (IH (k, v) Hv Hrest'). simpl in IH. rewrite Ev in IH.
        apply IH. discriminate.
      * destruct (fgtb v vb).
        -- specialize (IH (k, v) Hv Hrest'). simpl in IH. rewrite Ev in IH.
           now apply IH.
        -- specialize (IH (kb, vb) Hb Hrest'). simpl in IH. rewrite Evb in IH.
           now apply IH.
Qed.

Lemma first_with_some (d : dict float) (m : float) :
  existsb (fun kv => feqb (snd kv) m) d = true -> Spec.first_with d m <> None.
Proof.
  induction d as [|[k v] d IH]; simpl; [discriminate|].
  destruct (feqb v m); simpl; [discriminate | exact IH].
Qed.

(** [max] on a dictionary whose values have a maximum. *)
Lemma max_key_first (kv : pystr * float) (rest : dict float) (m : float) :
  Spec.is_max (kv :: rest) m = true ->
  Spec.first_with (kv :: rest) m = Some (max_from kv rest).
Proof.
  unfold Spec.is_max. intros H. apply andb_true_iff in H as [Hle Hex].
  rewrite forallb_forall in Hle.
  apply max_from_first.
  - apply (Hle kv). now left.
  - intros k v Hin. apply (Hle (k, v)). now right.
  - now apply first_with_some.
Qed.

(** Values that are not NaN have a maximum. *)
Lemma max_exists (d : dict float) :
  d <> [] -> Spec.no_nan d = true -> exists m, Spec.is_max d m = true.
Proof.
  unfold Spec.no_nan, Spec.is_max.
  induction d as [|[k v] d IH]; [congruence|]. intros _ Hnan.
  simpl in Hnan. apply andb_true_iff in Hnan as [Hv Hnan].
  apply negb_true_iff in Hv.
  destruct d as [|kv d'].
  - exists v. simpl. rewrite (fleb_refl v Hv).
    now rewrite (fleb_refl_feqb v (fleb_refl v Hv)).
  - destruct IH as [m Hm]; [discriminate | exact Hnan |].
    apply andb_true_iff in Hm as [Hle Hex].
    assert (Hm : is_nan m = false).
    { apply existsb_exists in Hex as [[k' v'] [_ He]]. simpl in He.
      apply feqb_fleb in He. now apply fleb_not_nan in He. }
    destruct (fleb_total v m Hv Hm) as [Hvm | Hmv].
    + exists m.
      change (fleb v m && forallb (fun x => fleb (snd x) m) (kv :: d')
              && (feqb v m || existsb (fun x => feqb (snd x) m) (kv :: d'))
              = true).
      rewrite Hvm, Hle, Hex. now rewrite orb_true_r.
    + exists v.
      change (fleb v v && forallb (fun x => fleb (snd x) v) (kv :: d')
              && (feqb v v || existsb (fun x => feqb (snd x) v) (kv :: d'))
              = true).
      rewrite (fleb_refl v Hv), (fleb_refl_feqb v (fleb_refl v Hv)).
      rewrite orb_true_l, andb_true_r, andb_true_l.
      rewrite forallb_forall in Hle. apply forallb_forall.
      intros x Hx. apply fleb_trans with m; [now apply Hle | exact Hmv].
Qed.

(** ** Dictionaries *)

Lemma lookup_setitem_same {V} (d : dict V) (k : pystr) (v : V) :
  lookup (setitem d k v) k = Some v.
Proof.
  induction d as [|[k' v'] d IH]; simpl.
  - now rewrite pystr_eqb_refl.
  - destruct (PyStr.eqb k' k) eqn:E; simpl; rewrite E; [reflexivity | exact IH].
Qed.

Lemma setitem_setitem {V} (d : dict V) (k : pystr) (v w : V) :
  setitem (setitem d k v) k w = setitem d k w.
Proof.
  induction d as [|[k' v'] d IH]; simpl.
  - now rewrite pystr_eqb_refl.
  - destruct (PyStr.eqb k' k) eqn:E; simpl; rewrite E; [reflexivity|].
    now rewrite IH.
Qed.

Lemma setitem_lookup {V} (d : dict V) (k : pystr) (v : V) :
  lookup d k = Some v -> setitem d k v = d.
Proof.
  induction d as [|[k' v'] d IH]; simpl; [discriminate|].
  destruct (PyStr.eqb k' k) eqn:E.
  - now intros [= ->].
  - intros H. now rewrite IH.
Qed.

(** ** The keyword heuristic *)

Import Heuristic.

Lemma keyword_count_le (text_l : pystr) (words : list pystr) :
  (Spec.keyword_count text_l words <= List.length words)%nat.
Proof. apply filter_length_le. Qed.

(** One loop of the heuristic adds the number of matching keywords to its
    counter. *)
Lemma count_words_spec (text_l name : pystr) (words : list pystr) :
  forall (b : dict float) (v : float),
    lookup b name = Some v ->
    count_words text_l name words b =
    inr (setitem b name (add_ones v (Spec.keyword_count text_l words))).
Proof.
  unfold count_words, Spec.keyword_count.
  induction words as [|w words IH]; intros b v Hv; simpl.
  - now rewrite setitem_lookup.
  - destruct (contains w text_l); simpl.
    + unfold getitem. rewrite Hv. simpl.
      rewrite (IH _ (fadd v one)) by apply lookup_setitem_same.
      now rewrite setitem_setitem.
    + now apply IH.
Qed.

Tactic Notation "case_le" ident(n) integer(k) :=
  do k (destruct n as [|n]; [vm_compute; reflexivity|]); exfalso; lia.

Lemma add_ones_of_nat (n : nat) :
  (n <= 5)%nat -> add_ones zero n = of_nat n.
Proof. intros H. case_le n 6. Qed.

Lemma fadd_of_nat (a b : nat) :
  (a <= 21)%nat -> (b <= 5)%nat -> fadd (of_nat a) (of_nat b) = of_nat (a + b).
Proof.
  intros Ha Hb.
  do 6 (destruct b as [|b]; [case_le a 22|]). exfalso; lia.
Qed.

Lemma of_nat_is_zero (n : nat) :
  (n <= 21)%nat -> is_zero (of_nat n) = (n =? 0)%nat.
Proof. intros H. case_le n 22. Qed.

Lemma of_nat_eq_zero (n : nat) :
  (n <= 21)%nat -> feqb (of_nat n) (of_Z 0) = (n =? 0)%nat.
Proof. intros H. case_le n 22. Qed.

Lemma fields_lookup (a d f j s : float) :
  lookup (Spec.fields a d f j s) (lit "anger") = Some a /\
  lookup (Spec.fields a d f j s) (lit "disgust") = Some d /\
  lookup (Spec.fields a d f j s) (lit "fear") = Some f /\
  lookup (Spec.fields a d f j s) (lit "joy") = Some j /\
  lookup (Spec.fields a d f j s) (lit "sadness") = Some s.
Proof. repeat split. Qed.

Lemma fields_setitem (a d f j s x : float) :
  setitem (Spec.fields a d f j s) (lit "anger") x = Spec.fields x d f j s /\
  setitem (Spec.fields a d f j s) (lit "disgust") x = Spec.fields a x f j s /\
  setitem (Spec.fields a d f j s) (lit "fear") x = Spec.fields a d x j s /\
  setitem (Spec.fields a d f j s) (lit "joy") x = Spec.fields a d f x s /\
  setitem (Spec.fields a d f j s) (lit "sadness") x = Spec.fields a d f j x.
Proof. repeat split. Qed.

Lemma finish_fields (a d f j s : float) (dom : pystr) :
  finish (Spec.fields a d f j s) dom = Spec.ok_result a d f j s dom.
Proof. reflexivity. Qed.

Lemma ok_result_status (a d f j s : float) (dom : pystr) :
  setitem (Spec.ok_result a d f j s dom) (lit "status_code") (PInt 200)
  = Spec.ok_result a d f j s dom.
Proof. reflexivity. Qed.

Section HeuristicFacts.

Variable str_lower : pystr -> pystr.

(** The counts of matching keywords, per category. *)
Let count (text : pystr) (words : list pystr) : nat :=
  Spec.keyword_count (str_lower text) words.

(** The heuristic computes [Heuristic.outcome] on the keyword counts. *)
Lemma rule_based_scores_outcome (text : pystr) :
  rule_based_scores str_lower text = inr (on_text str_lower text).
Proof.
  unfold on_text. cbv zeta.
  change (rule_based_scores str_lower text =
          inr (outcome (count text anger_words) (count text disgust_words)
                 (count text fear_words) (count text joy_words)
                 (count text sadness_words))).
  pose proof (keyword_count_le (str_lower text) anger_words) as Ha.
  pose proof (keyword_count_le (str_lower text) disgust_words) as Hd.
  pose proof (keyword_count_le (str_lower text) fear_words) as Hf.
  pose proof (keyword_count_le (str_lower text) joy_words) as Hj.
  pose proof (keyword_count_le (str_lower text) sadness_words) as Hs.
  change (List.length anger_words) with 5%nat in Ha.
  change (List.length disgust_words) with 3%nat in Hd.
  change (List.length fear_words) with 4%nat in Hf.
  change (List.length joy_words) with 5%nat in Hj.
  change (List.length sadness_words) with 4%nat in Hs.
  unfold count, rule_based_scores.
  set (ca := Spec.keyword_count (str_lower text) anger_words) in *.
  set (cd := Spec.keyword_count (str_lower text) disgust_words) in *.
  set (cf := Spec.keyword_count (str_lower text) fear_words) in *.
  set (cj := Spec.keyword_count (str_lower text) joy_words) in *.
  set (cs := Spec.keyword_count (str_lower text) sadness_words) in *.
  change [(lit "anger", zero); (lit "disgust", zero); (lit "fear", zero);
          (lit "joy", zero); (lit "sadness", zero)]
    with (Spec.fields zero zero zero zero zero).
  rewrite (count_words_spec _ _ _ _ zero) by apply fields_lookup.
  fold ca. rewrite (proj1 (fields_setitem _ _ _ _ _ _)). cbn [rbind].
  rewrite (count_words_spec _ _ _ _ zero) by apply fields_lookup.
  fold cd. rewrite (proj1 (proj2 (fields_setitem _ _ _ _ _ _))). cbn [rbind].
  rewrite (count_words_spec _ _ _ _ zero) by apply fields_lookup.
  fold cf.
  rewrite (proj1 (proj2 (proj2 (fields_setitem _ _ _ _ _ _)))). cbn [rbind].
  rewrite (count_words_spec _ _ _ _ zero) by apply fields_lookup.
  fold cj.
  rewrite (proj1 (proj2 (proj2 (proj2 (fields_setitem _ _ _ _ _ _))))).
  cbn [rbind].
  rewrite (count_words_spec _ _ _ _ zero) by apply fields_lookup.
  fold cs.
  rewrite (proj2 (proj2 (proj2 (proj2 (fields_setitem _ _ _ _ _ _))))).
  cbn [rbind].
  rewrite !add_ones_of_nat by lia.
  assert (Hsum : sum_values
                   (Spec.fields (of_nat ca) (of_nat cd) (of_nat cf)
                      (of_nat cj) (of_nat cs))
                 = of_nat (ca + cd + cf + cj + cs)).
  { unfold sum_values, Spec.fields, values. cbn [map snd fold_left].
    change zero with (of_nat 0).
    rewrite !fadd_of_nat by lia. reflexivity. }
  rewrite Hsum. rewrite of_nat_eq_zero by lia.
  unfold outcome.
  destruct (ca + cd + cf + cj + cs =? 0)%nat eqn:Et.
  - reflexivity.
  - unfold normalize, Spec.fields, truediv.
    rewrite of_nat_is_zero, Et by lia. cbn [rbind]. reflexivity.
Qed.

End HeuristicFacts.

Lemma forallb_upto (p : nat -> bool) (n k : nat) :
  forallb p (upto n) = true -> (k <= n)%nat -> p k = true.
Proof.
  intros H Hk. rewrite forallb_forall in H. apply H.
  unfold upto. apply in_seq. lia.
Qed.

Lemma on_grid_sound (p : nat -> nat -> nat -> nat -> nat -> bool) :
  on_grid p = true ->
  forall ca cd cf cj cs : nat,
    (ca <= List.length anger_words)%nat ->
    (cd <= List.length disgust_words)%nat ->
    (cf <= List.length fear_words)%nat ->
    (cj <= List.length joy_words)%nat ->
    (cs <= List.length sadness_words)%nat ->
    p ca cd cf cj cs = true.
Proof.
  unfold on_grid. intros H ca cd cf cj cs Ha Hd Hf Hj Hs.
  apply (forallb_upto _ _ ca) in H; [|exact Ha].
  apply (forallb_upto _ _ cd) in H; [|exact Hd].
  apply (forallb_upto _ _ cf) in H; [|exact Hf].
  apply (forallb_upto _ _ cj) in H; [|exact Hj].
  apply (forallb_upto _ _ cs) in H; [|exact Hs].
  exact H.
Qed.

(** ** The payload of a 200 response *)

Lemma subscript_int_first (x : pyval) (l : list pyval) :
  subscript_int (PList (x :: l)) 0 = inr x.
Proof.
  unfold subscript_int.
  assert (H : (0 <? Z.of_nat (List.length (x :: l))) = true)
    by (apply Z.ltb_lt; simpl; lia).
  cbv zeta. change (0 <? 0) with false. cbv iota.
  rewrite H. reflexivity.
Qed.

Section ParseFacts.

Variable str_to_float : pystr -> option float.

Let to_float := py_float str_to_float.

Lemma emotion_score_supplied (em : dict pyval) (k : pystr) :
  emotion_score str_to_float (PDict em) k =
  match Spec.supplied to_float em k with
  | Some f => inr f
  | None =>
      match lookup em k with
      | Some v => to_float v
      | None => inl ValueError
      end
  end.
Proof.
  unfold emotion_score, Spec.supplied, method_get, to_float.
  destruct (lookup em k) as [v|]; simpl; [|reflexivity].
  destruct (py_float str_to_float v); reflexivity.
Qed.

(** A parseable body yields the supplied scores. *)
Lemma parse_response_success (resp : response) (scores : dict float) :
  Spec.payload_scores to_float (json resp) = Some scores ->
  exists a d f j s,
    scores = Spec.fields a d f j s /\
    parse_response str_to_float resp =
    inr (Spec.ok_result a d f j s
           (max_from (lit "anger", a)
              [(lit "disgust", d); (lit "fear", f); (lit "joy", j);
               (lit "sadness", s)])).
Proof.
  unfold Spec.payload_scores, parse_response.
  destruct (json resp) as [e|jv]; [discriminate|].
  unfold Spec.emotions_of.
  destruct jv as [| | | | |l|top]; try discriminate.
  cbn [rbind subscript_str]. unfold getitem.
  destruct (lookup top (lit "emotionPredictions")) as [preds|];
    [|discriminate].
  destruct preds as [| | | | |[|first rest]|]; try discriminate.
  destruct first as [| | | | | |fd]; try discriminate.
  cbn [rbind]. rewrite subscript_int_first.
  cbn [rbind subscript_str]. unfold getitem.
  destruct (lookup fd (lit "emotion")) as [em|]; [|discriminate].
  destruct em as [| | | | | |em]; try discriminate.
  cbn [rbind]. rewrite !emotion_score_supplied.
  destruct (Spec.supplied to_float em (lit "anger")) as [a|]; [|discriminate].
  destruct (Spec.supplied to_float em (lit "disgust")) as [d|];
    [|discriminate].
  destruct (Spec.supplied to_float em (lit "fear")) as [f|]; [|discriminate].
  destruct (Spec.supplied to_float em (lit "joy")) as [j|]; [|discriminate].
  destruct (Spec.supplied to_float em (lit "sadness")) as [s|];
    [|discriminate].
  intros [= <-]. exists a, d, f, j, s. split; reflexivity.
Qed.

Lemma emotion_score_none (em : dict pyval) (k : pystr) :
  Spec.supplied to_float em k = None ->
  exists e, emotion_score str_to_float (PDict em) k = inl e.
Proof.
  unfold emotion_score, Spec.supplied, method_get, to_float.
  destruct (lookup em k) as [v|]; simpl; [|discriminate].
  destruct (py_float str_to_float v) as [e|f]; [|discriminate].
  intros _. now exists e.
Qed.

Lemma subscript_int_str (s : pystr) :
  (exists e, subscript_int (PStr s) 0 = inl e) \/
  (exists c, subscript_int (PStr s) 0 = inr (PStr [c])).
Proof.
  destruct s as [|c s].
  - left. now exists IndexError.
  - right. exists c. unfold subscript_int.
    assert (H : (0 <? Z.of_nat (List.length (c :: s))) = true)
      by (apply Z.ltb_lt; simpl; lia).
    cbv zeta. change (0 <? 0) with false. cbv iota.
    rewrite H. reflexivity.
Qed.

(** Any other body makes the parse raise. *)
Lemma parse_response_failure (resp : response) :
  Spec.payload_scores to_float (json resp) = None ->
  exists e, parse_response str_to_float resp = inl e.
Proof.
  unfold Spec.payload_scores, parse_response.
  destruct (json resp) as [e|jv]; [intros _; now exists e|].
  unfold Spec.emotions_of.
  destruct jv as [| | | | |l|top]; try (intros _; eexists; reflexivity).
  cbn [rbind subscript_str]. unfold getitem.
  destruct (lookup top (lit "emotionPredictions")) as [preds|];
    [|intros _; eexists; reflexivity].
  cbn [rbind].
  destruct preds as [| | | |s|[|first rest]|];
    try (intros _; eexists; reflexivity).
  { intros _. destruct (subscript_int_str s) as [[e He]|[c Hc]].
    - rewrite He. now exists e.
    - rewrite Hc. eexists; reflexivity. }
  rewrite subscript_int_first. cbn [rbind].
  destruct first as [| | | | | |fd]; try (intros _; eexists; reflexivity).
  cbn [subscript_str]. unfold getitem.
  destruct (lookup fd (lit "emotion")) as [em|];
    [|intros _; eexists; reflexivity].
  cbn [rbind].
  destruct em as [| | | | | |em]; try (intros _; eexists; reflexivity).
  destruct (Spec.supplied to_float em (lit "anger")) as [a|] eqn:Ea.
  2:{ intros _. destruct (emotion_score_none _ _ Ea) as [e ->].
      now exists e. }
  destruct (Spec.supplied to_float em (lit "disgust")) as [d|] eqn:Ed.
  2:{ intros _. rewrite emotion_score_supplied, Ea. cbn [rbind].
      destruct (emotion_score_none _ _ Ed) as [e ->]. now exists e. }
  destruct (Spec.supplied to_float em (lit "fear")) as [f|] eqn:Ef.
  2:{ intros _. rewrite emotion_score_supplied, Ea. cbn [rbind].
      rewrite emotion_score_supplied, Ed. cbn [rbind].
      destruct (emotion_score_none _ _ Ef) as [e ->]. now exists e. }
  destruct (Spec.supplied to_float em (lit "joy")) as [j|] eqn:Ej.
  2:{ intros _. rewrite emotion_score_supplied, Ea. cbn [rbind].
      rewrite emotion_score_supplied, Ed. cbn [rbind].
      rewrite emotion_score_supplied, Ef. cbn [rbind].
      destruct (emotion_score_none _ _ Ej) as [e ->]. now exists e. }
  destruct (Spec.supplied to_float em (lit "sadness")) as [s|] eqn:Es.
  2:{ intros _. rewrite emotion_score_supplied, Ea. cbn [rbind].
      rewrite emotion_score_supplied, Ed. cbn [rbind].
      rewrite emotion_score_supplied, Ef. cbn [rbind].
      rewrite emotion_score_supplied, Ej. cbn [rbind].
      destruct (emotion_score_none _ _ Es) as [e ->]. now exists e. }
  discriminate.
Qed.

End ParseFacts.

(** ** The paths of [emotion_detector] *)

Lemma outcome_shape (ca cd cf cj cs : nat) :
  exists a d f j s dom,
    outcome ca cd cf cj cs = Spec.ok_result a d f j s dom /\
    In dom Spec.names.
Proof.
  unfold outcome. destruct (ca + cd + cf + cj + cs =? 0)%nat.
  - do 6 eexists. split; [reflexivity|]. simpl. tauto.
  - unfold scores, ranked, Spec.fields.
    do 6 eexists. split; [reflexivity|]. exact (max_from_in _ _).
Qed.

Lemma outcome_status (ca cd cf cj cs : nat) :
  setitem (outcome ca cd cf cj cs) (lit "status_code") (PInt 200)
  = outcome ca cd cf cj cs.
Proof.
  destruct (outcome_shape ca cd cf cj cs) as (a & d & f & j & s & dom & -> & _).
  apply ok_result_status.
Qed.

Section DetectorFacts.

Variable str_lower : pystr -> pystr.
Variable str_to_float : pystr -> option float.
Variable remote : request -> Res response.

Let detector := emotion_detector str_lower str_to_float remote.
Let to_float := py_float str_to_float.

(** The fallback block: the heuristic, then [out["status_code"] = 200]. *)
Lemma fallback_run (text : pystr) (t : trace) :
  (out <- _rule_based_detector str_lower text ;;
   ret (setitem out (lit "status_code") (PInt 200)))%eff t
  = (inr (on_text str_lower text), t ++ [EvRuleBased text]).
Proof.
  unfold _rule_based_detector, Eff.bind, log, lift, ret.
  rewrite rule_based_scores_outcome. unfold on_text.
  now rewrite outcome_status.
Qed.

(** What [emotion_detector] returns and records, by cases on the input
    and on the outcome of the remote call. *)
Lemma emotion_detector_cases (text : pystr) (t : trace) :
  detector text t =
  if Spec.blank text then (inr _none_result, t)
  else
    let req := watson_request text in
    match Spec.classify to_float (remote req) with
    | Spec.BadRequest => (inr _none_result, t ++ [EvPost req])
    | Spec.Success scores => (inr (ranked scores), t ++ [EvPost req])
    | Spec.TransportError | Spec.ParseFailure | Spec.OtherStatus =>
        (inr (on_text str_lower text), t ++ [EvPost req; EvRuleBased text])
    end.
Proof.
  unfold detector, emotion_detector. rewrite guard_blank.
  destruct (Spec.blank text); [reflexivity|].
  cbv zeta. unfold try_else at 1, requests_post, Spec.classify.
  destruct (remote (watson_request text)) as [e|resp].
  - rewrite fallback_run. now rewrite <- app_assoc.
  - destruct (status_code resp =? 400); [reflexivity|].
    destruct (status_code resp =? 200).
    + unfold try_except, try_else, lift.
      destruct (Spec.payload_scores to_float (json resp)) as [sc|] eqn:Hp.
      * destruct (parse_response_success _ _ _ Hp)
          as (a & d & f & j & s & -> & ->).
        reflexivity.
      * destruct (parse_response_failure _ _ Hp) as [e ->].
        rewrite fallback_run. now rewrite <- app_assoc.
    + rewrite fallback_run. now rewrite <- app_assoc.
Qed.

End DetectorFacts.

Lemma classify_success_fields (to_float : pyval -> Res float)
  (o : Res response) (sc : dict float) :
  Spec.classify to_float o = Spec.Success sc ->
  exists a d f j s, sc = Spec.fields a d f j s.
Proof.
  unfold Spec.classify, Spec.payload_scores.
  destruct o as [e|resp]; [discriminate|].
  destruct (status_code resp =? 400); [discriminate|].
  destruct (status_code resp =? 200); [|discriminate].
  destruct (json resp) as [e|jv]; [discriminate|].
  destruct (Spec.emotions_of jv) as [em|]; [|discriminate].
  destruct (Spec.supplied to_float em (lit "anger")) as [a|]; [|discriminate].
  destruct (Spec.supplied to_float em (lit "disgust")) as [d|];
    [|discriminate].
  destruct (Spec.supplied to_float em (lit "fear")) as [f|]; [|discriminate].
  destruct (Spec.supplied to_float em (lit "joy")) as [j|]; [|discriminate].
  destruct (Spec.supplied to_float em (lit "sadness")) as [s|];
    [|discriminate].
  intros [= <-]. now exists a, d, f, j, s.
Qed.

(** Every result is the None-values dict or an ok result ranked by [max]. *)
Lemma emotion_detector_shape (str_lower : pystr -> pystr)
  (str_to_float : pystr -> option float) (remote : request -> Res response)
  (text : pystr) (t : trace) :
  exists r t',
    emotion_detector str_lower str_to_float remote text t = (inr r, t') /\
    (r = _none_result \/
     exists a d f j s, r = ranked (Spec.fields a d f j s)).
Proof.
  rewrite emotion_detector_cases.
  destruct (Spec.blank text); [do 2 eexists; split; [reflexivity | now left]|].
  cbv zeta.
  assert (Hh : exists a d f j s,
             on_text str_lower text = ranked (Spec.fields a d f j s)).
  { unfold on_text, outcome. cbv zeta.
    match goal with |- context [(?n =? 0)%nat] => destruct (n =? 0)%nat end.
    - exists (dec 10 100), (dec 5 100), (dec 5 100), (dec 60 100),
        (dec 20 100). reflexivity.
    - do 5 eexists. reflexivity. }
  destruct (Spec.classify (py_float str_to_float)
              (remote (watson_request text))) as [| |sc| |] eqn:Hc;
    try (do 2 eexists; split; [reflexivity | now right]).
  - do 2 eexists; split; [reflexivity | now left].
  - do 2 eexists; split; [reflexivity | right].
    destruct (classify_success_fields _ _ _ Hc) as (a & d & f & j & s & ->).
    now exists a, d, f, j, s.
Qed.

Lemma ranked_fields (a d f j s : float) :
  ranked (Spec.fields a d f j s) =
  Spec.ok_result a d f j s
    (max_from (lit "anger", a)
       [(lit "disgust", d); (lit "fear", f); (lit "joy", j);
        (lit "sadness", s)]).
Proof. reflexivity. Qed.

Lemma ranked_dominant_in (a d f j s : float) :
  exists dom,
    ranked (Spec.fields a d f j s) = Spec.ok_result a d f j s dom /\
    In dom Spec.names.
Proof.
  eexists. split; [apply ranked_fields|]. exact (max_from_in _ _).
Qed.

Lemma names_mem (dom : pystr) :
  In dom Spec.names -> existsb (PyStr.eqb dom) Spec.names = true.
Proof.
  intros H. apply existsb_exists. exists dom. split; [exact H|].
  apply pystr_eqb_refl.
Qed.

(** The normalized scores are well-behaved for every vector of counts. *)
Lemma grid_well_normalized :
  on_grid (fun ca cd cf cj cs =>
             (ca + cd + cf + cj + cs =? 0)%nat
             || well_normalized (scores ca cd cf cj cs)) = true.
Proof. vm_compute. reflexivity. Qed.

(** ** The scenarios of the specification *)

Example scenario_empty :
  run (emotion_detector ascii_lower Sample.no_float Sample.unreachable [])
  = (inr _none_result, []).
Proof. reflexivity. Qed.

Example scenario_happy_excited :
  fst (run (emotion_detector ascii_lower Sample.no_float Sample.unreachable
              (lit "I am so happy and excited today!")))
  = inr (Spec.ok_result zero zero zero one zero (lit "joy")).
Proof. vm_compute. reflexivity. Qed.

Example scenario_test :
  fst (run (emotion_detector ascii_lower Sample.no_float Sample.unreachable
              (lit "test")))
  = inr Spec.default_result.
Proof. vm_compute. reflexivity. Qed.

Example scenario_hate_sad :
  fst (run (emotion_detector ascii_lower Sample.no_float Sample.unreachable
              (lit "I hate this, it's so sad")))
  = inr (Spec.ok_result (dec 5 10) zero zero zero (dec 5 10) (lit "anger")).
Proof. vm_compute. reflexivity. Qed.

Example scenario_bad_request :
  run (emotion_detector ascii_lower Sample.no_float
         (Sample.answers 400 (inl JSONDecodeError)) (lit "hello"))
  = (inr _none_result, [EvPost (watson_request (lit "hello"))]).
Proof. vm_compute. reflexivity. Qed.

Example scenario_remote_scores :
  fst (run (emotion_detector ascii_lower Sample.no_float
              (Sample.answers 200
                 (inr (Sample.payload
                         [(lit "joy", PFloat (dec 9 10));
                          (lit "anger", PFloat (dec 1 10))])))
              (lit "hello")))
  = inr (Spec.ok_result (dec 1 10) zero zero (dec 9 10) zero (lit "joy")).
Proof. vm_compute. reflexivity. Qed.

(** * The claims *)

(** C1.  For every input string that is empty or consists only of
    whitespace, [emotion_detector] returns a rejected result (status 400,
    the five scores and the dominant emotion all [None]) and makes no remote
    call: nothing is added to the trace. *)
Theorem blank_input_rejected (str_lower : pystr -> pystr)
  (str_to_float : pystr -> option float) (remote : request -> Res response)
  (text : pystr) (t : trace) :
  Spec.blank text = true ->
  exists r t',
    emotion_detector str_lower str_to_float remote text t = (inr r, t') /\
    Spec.rejected r = true /\
    Spec.no_scores r = true /\
    t' = t /\
    remote_calls t' = remote_calls t.
Proof.
  intros Hb. exists _none_result, t.
  rewrite emotion_detector_cases, Hb. repeat split.
Qed.

Lemma blank_input_rejected_witness :
  Spec.blank (lit "   ") = true /\
  exists r t',
    emotion_detector ascii_lower Sample.no_float Sample.unreachable
      (lit "   ") [] = (inr r, t') /\
    Spec.rejected r = true /\
    Spec.no_scores r = true /\
    t' = [] /\
    remote_calls t' = remote_calls [].
Proof.
  split; [reflexivity|].
  apply (blank_input_rejected ascii_lower Sample.no_float Sample.unreachable
           (lit "   ") []).
  reflexivity.
Defined.

Lemma remote_calls_app (t u : trace) :
  remote_calls (t ++ u) = (remote_calls t + remote_calls u)%nat.
Proof. unfold remote_calls. now rewrite filter_app, length_app. Qed.

Lemma heuristic_calls_app (t u : trace) :
  heuristic_calls (t ++ u) = (heuristic_calls t + heuristic_calls u)%nat.
Proof. unfold heuristic_calls. now rewrite filter_app, length_app. Qed.

(** C2.  For every non-blank input, if the remote service responds with
    HTTP 400, whatever the body, [emotion_detector] returns a rejected
    result (all scores [None]) and the keyword heuristic is not invoked. *)
Theorem remote_400_rejected (str_lower : pystr -> pystr)
  (str_to_float : pystr -> option float) (remote : request -> Res response)
  (text : pystr) (t : trace) (body : Res pyval) :
  Spec.blank text = false ->
  remote (watson_request text) = inr (mkResponse 400 body) ->
  exists r t',
    emotion_detector str_lower str_to_float remote text t = (inr r, t') /\
    Spec.rejected r = true /\
    Spec.no_scores r = true /\
    heuristic_calls t' = heuristic_calls t.
Proof.
  intros Hb Hr. exists _none_result, (t ++ [EvPost (watson_request text)]).
  rewrite emotion_detector_cases, Hb. cbv zeta. rewrite Hr.
  repeat split. rewrite heuristic_calls_app.
  change (heuristic_calls [EvPost (watson_request text)]) with 0%nat. lia.
Qed.

Lemma remote_400_rejected_witness :
  Spec.blank (lit "I am happy") = false /\
  Sample.answers 400 (inr (Sample.payload [(lit "joy", PFloat one)]))
    (watson_request (lit "I am happy"))
  = inr (mkResponse 400 (inr (Sample.payload [(lit "joy", PFloat one)]))) /\
  exists r t',
    emotion_detector ascii_lower Sample.no_float
      (Sample.answers 400 (inr (Sample.payload [(lit "joy", PFloat one)])))
      (lit "I am happy") [] = (inr r, t') /\
    Spec.rejected r = true /\
    Spec.no_scores r = true /\
    heuristic_calls t' = heuristic_calls [].
Proof.
  split; [reflexivity|]. split; [reflexivity|].
  apply (remote_400_rejected ascii_lower Sample.no_float
           (Sample.answers 400
              (inr (Sample.payload [(lit "joy", PFloat one)])))
           (lit "I am happy") []
           (inr (Sample.payload [(lit "joy", PFloat one)])));
    reflexivity.
Defined.

(** C8.  [emotion_detector] never raises: for every input and every
    behaviour of the remote service (exceptions of the call, any status, a
    body whose decoding raises, values of any type), it returns a result,
    which is either rejected or ok. *)
Theorem emotion_detector_never_raises (str_lower : pystr -> pystr)
  (str_to_float : pystr -> option float) (remote : request -> Res response)
  (text : pystr) (t : trace) :
  exists r t',
    emotion_detector str_lower str_to_float remote text t = (inr r, t') /\
    (Spec.rejected r = true \/ Spec.ok r = true).
Proof.
  destruct (emotion_detector_shape str_lower str_to_float remote text t)
    as (r & t' & Hrun & [-> | (a & d & f & j & s & ->)]).
  - exists _none_result, t'. split; [exact Hrun | now left].
  - eexists _, t'. split; [exact Hrun | now right].
Qed.

(** C10.  Every result of [emotion_detector] has a [status_code] that is
    200 or 400; it is 400 exactly when the dominant emotion is [None], which
    is exactly when all five scores are [None]; so the two rejection tests
    of the web handler agree. *)
Theorem status_code_invariant (str_lower : pystr -> pystr)
  (str_to_float : pystr -> option float) (remote : request -> Res response)
  (text : pystr) (t : trace) :
  exists r t',
    emotion_detector str_lower str_to_float remote text t = (inr r, t') /\
    (lookup r (lit "status_code") = Some (PInt 200) \/
     lookup r (lit "status_code") = Some (PInt 400)) /\
    (lookup r (lit "status_code") = Some (PInt 400) <->
     lookup r (lit "dominant_emotion") = Some PNone) /\
    (lookup r (lit "dominant_emotion") = Some PNone <->
     forallb (Spec.absent r) Spec.names = true) /\
    exists dominant,
      getitem r (lit "dominant_emotion") = inr dominant /\
      eq_int (get r (lit "status_code")) 400 = is_none dominant.
Proof.
  destruct (emotion_detector_shape str_lower str_to_float remote text t)
    as (r & t' & Hrun & [-> | (a & d & f & j & s & ->)]).
  - exists _none_result, t'. split; [exact Hrun|].
    split; [now right|]. split; [split; reflexivity|].
    split; [split; reflexivity|]. exists PNone. split; reflexivity.
  - eexists _, t'. split; [exact Hrun|]. rewrite ranked_fields.
    split; [now left|]. split; [split; discriminate|].
    split; [split; discriminate|]. eexists. split; reflexivity.
Qed.

Lemma filter_none {A} (p : A -> bool) (l : list A) :
  existsb p l = false -> filter p l = [].
Proof.
  induction l as [|x l IH]; simpl; [reflexivity|].
  destruct (p x); simpl; [discriminate | exact IH].
Qed.

Lemma no_keyword_counts (text_l : pystr) :
  Spec.any_keyword text_l = false ->
  Spec.keyword_count text_l anger_words = 0%nat /\
  Spec.keyword_count text_l disgust_words = 0%nat /\
  Spec.keyword_count text_l fear_words = 0%nat /\
  Spec.keyword_count text_l joy_words = 0%nat /\
  Spec.keyword_count text_l sadness_words = 0%nat.
Proof.
  unfold Spec.any_keyword, Spec.all_words, Spec.keyword_count.
  rewrite !existsb_app. intros H.
  apply orb_false_iff in H as [Ha H]. apply orb_false_iff in H as [Hd H].
  apply orb_false_iff in H as [Hf H]. apply orb_false_iff in H as [Hj Hs].
  now rewrite !filter_none.
Qed.

Lemma fallback_paths (str_lower : pystr -> pystr)
  (str_to_float : pystr -> option float) (remote : request -> Res response)
  (text : pystr) (t : trace) :
  Spec.blank text = false ->
  Spec.failed (Spec.classify (py_float str_to_float)
                 (remote (watson_request text))) = true ->
  emotion_detector str_lower str_to_float remote text t
  = (inr (on_text str_lower text),
     t ++ [EvPost (watson_request text); EvRuleBased text]).
Proof.
  intros Hb Hf. rewrite emotion_detector_cases, Hb. cbv zeta.
  destruct (Spec.classify (py_float str_to_float)
              (remote (watson_request text))); try discriminate; reflexivity.
Qed.

(** C7.  For every non-blank input on the fallback path (the remote call
    failed) in which no listed keyword occurs in the lower-cased input,
    [emotion_detector] returns exactly the fixed default distribution
    anger 0.10, disgust 0.05, fear 0.05, joy 0.60, sadness 0.20, with
    dominant emotion joy, as an ok result. *)
Theorem no_keyword_default (str_lower : pystr -> pystr)
  (str_to_float : pystr -> option float) (remote : request -> Res response)
  (text : pystr) (t : trace) :
  Spec.blank text = false ->
  Spec.failed (Spec.classify (py_float str_to_float)
                 (remote (watson_request text))) = true ->
  Spec.any_keyword (str_lower text) = false ->
  exists t',
    emotion_detector str_lower str_to_float remote text t
    = (inr (Spec.ok_result (dec 10 100) (dec 5 100) (dec 5 100) (dec 60 100)
              (dec 20 100) (lit "joy")), t') /\
    Spec.ok (Spec.ok_result (dec 10 100) (dec 5 100) (dec 5 100) (dec 60 100)
               (dec 20 100) (lit "joy")) = true.
Proof.
  intros Hb Hf Hk. eexists. split; [|reflexivity].
  rewrite (fallback_paths _ _ _ _ _ Hb Hf). unfold on_text. cbv zeta.
  destruct (no_keyword_counts _ Hk) as (-> & -> & -> & -> & ->).
  reflexivity.
Qed.

Lemma no_keyword_default_witness :
  Spec.blank (lit "test") = false /\
  Spec.failed (Spec.classify (py_float Sample.no_float)
                 (Sample.unreachable (watson_request (lit "test")))) = true /\
  Spec.any_keyword (ascii_lower (lit "test")) = false /\
  exists t',
    emotion_detector ascii_lower Sample.no_float Sample.unreachable
      (lit "test") []
    = (inr (Spec.ok_result (dec 10 100) (dec 5 100) (dec 5 100) (dec 60 100)
              (dec 20 100) (lit "joy")), t') /\
    Spec.ok (Spec.ok_result (dec 10 100) (dec 5 100) (dec 5 100) (dec 60 100)
               (dec 20 100) (lit "joy")) = true.
Proof.
  split; [reflexivity|]. split; [reflexivity|]. split; [reflexivity|].
  apply (no_keyword_default ascii_lower Sample.no_float Sample.unreachable
           (lit "test") []); reflexivity.
Defined.

Lemma ranked_scores (ca cd cf cj cs : nat) :
  exists dom,
    ranked (scores ca cd cf cj cs) =
    Spec.ok_result
      (fdiv (of_nat ca) (of_nat (ca + cd + cf + cj + cs)))
      (fdiv (of_nat cd) (of_nat (ca + cd + cf + cj + cs)))
      (fdiv (of_nat cf) (of_nat (ca + cd + cf + cj + cs)))
      (fdiv (of_nat cj) (of_nat (ca + cd + cf + cj + cs)))
      (fdiv (of_nat cs) (of_nat (ca + cd + cf + cj + cs))) dom /\
    In dom Spec.names.
Proof. unfold scores. cbv zeta. apply ranked_dominant_in. Qed.

Lemma scores_well_normalized (text_l : pystr) :
  let ca := Spec.keyword_count text_l anger_words in
  let cd := Spec.keyword_count text_l disgust_words in
  let cf := Spec.keyword_count text_l fear_words in
  let cj := Spec.keyword_count text_l joy_words in
  let cs := Spec.keyword_count text_l sadness_words in
  (ca + cd + cf + cj + cs)%nat <> 0%nat ->
  well_normalized (scores ca cd cf cj cs) = true.
Proof.
  intros ca cd cf cj cs Ht.
  pose proof (on_grid_sound _ grid_well_normalized ca cd cf cj cs
                (keyword_count_le _ _) (keyword_count_le _ _)
                (keyword_count_le _ _) (keyword_count_le _ _)
                (keyword_count_le _ _)) as H.
  cbv beta in H. apply orb_true_iff in H as [H | H]; [|exact H].
  apply Nat.eqb_eq in H. contradiction.
Qed.

(** C4, as amended.  For every non-blank input, when the remote call fails
    (transport error, status other than 200 and 400, or parse failure), the
    result is ok.  If no keyword matched it is the fixed default
    distribution.  Otherwise its five scores are the per-category keyword
    counts divided, in binary64, by their total; they are finite and
    non-negative and sum to 1.0 up to rounding: the exact sum of the five
    stored scores is within 2^-54 of 1 and their left-to-right float sum is
    within 2^-52 of 1.0. *)
Theorem fallback_scores_normalized (str_lower : pystr -> pystr)
  (str_to_float : pystr -> option float) (remote : request -> Res response)
  (text : pystr) (t : trace) :
  let ca := Spec.keyword_count (str_lower text) anger_words in
  let cd := Spec.keyword_count (str_lower text) disgust_words in
  let cf := Spec.keyword_count (str_lower text) fear_words in
  let cj := Spec.keyword_count (str_lower text) joy_words in
  let cs := Spec.keyword_count (str_lower text) sadness_words in
  let total := (ca + cd + cf + cj + cs)%nat in
  Spec.blank text = false ->
  Spec.failed (Spec.classify (py_float str_to_float)
                 (remote (watson_request text))) = true ->
  exists r t',
    emotion_detector str_lower str_to_float remote text t = (inr r, t') /\
    Spec.ok r = true /\
    (total = 0%nat -> r = Spec.default_result) /\
    (total <> 0%nat ->
     exists dom,
       r = Spec.ok_result
             (fdiv (of_nat ca) (of_nat total))
             (fdiv (of_nat cd) (of_nat total))
             (fdiv (of_nat cf) (of_nat total))
             (fdiv (of_nat cj) (of_nat total))
             (fdiv (of_nat cs) (of_nat total)) dom /\
       well_normalized
         (Spec.fields
            (fdiv (of_nat ca) (of_nat total))
            (fdiv (of_nat cd) (of_nat total))
            (fdiv (of_nat cf) (of_nat total))
            (fdiv (of_nat cj) (of_nat total))
            (fdiv (of_nat cs) (of_nat total))) = true).
Proof.
  intros ca cd cf cj cs total Hb Hf.
  exists (on_text str_lower text). eexists.
  split; [apply (fallback_paths _ _ _ _ _ Hb Hf)|].
  unfold on_text, outcome. cbv zeta. fold ca cd cf cj cs. fold total.
  destruct (total =? 0)%nat eqn:Et.
  - apply Nat.eqb_eq in Et. split; [reflexivity|].
    split; [intros _; reflexivity|]. intros Hne. contradiction.
  - apply Nat.eqb_neq in Et.
    destruct (ranked_scores ca cd cf cj cs) as (dom & Hr & _).
    fold total in Hr. rewrite Hr.
    split; [reflexivity|]. split; [contradiction|].
    intros _. exists dom. split; [reflexivity|].
    exact (scores_well_normalized (str_lower text) Et).
Qed.

Lemma fallback_scores_normalized_witness :
  Spec.blank (lit "fear happy glad love joy sad") = false /\
  Spec.failed
    (Spec.classify (py_float Sample.no_float)
       (Sample.unreachable
          (watson_request (lit "fear happy glad love joy sad")))) = true /\
  let text := lit "fear happy glad love joy sad" in
  let ca := Spec.keyword_count (ascii_lower text) anger_words in
  let cd := Spec.keyword_count (ascii_lower text) disgust_words in
  let cf := Spec.keyword_count (ascii_lower text) fear_words in
  let cj := Spec.keyword_count (ascii_lower text) joy_words in
  let cs := Spec.keyword_count (ascii_lower text) sadness_words in
  let total := (ca + cd + cf + cj + cs)%nat in
  exists r t',
    emotion_detector ascii_lower Sample.no_float Sample.unreachable text []
    = (inr r, t') /\
    Spec.ok r = true /\
    (total = 0%nat -> r = Spec.default_result) /\
    (total <> 0%nat ->
     exists dom,
       r = Spec.ok_result
             (fdiv (of_nat ca) (of_nat total))
             (fdiv (of_nat cd) (of_nat total))
             (fdiv (of_nat cf) (of_nat total))
             (fdiv (of_nat cj) (of_nat total))
             (fdiv (of_nat cs) (of_nat total)) dom /\
       well_normalized
         (Spec.fields
            (fdiv (of_nat ca) (of_nat total))
            (fdiv (of_nat cd) (of_nat total))
            (fdiv (of_nat cf) (of_nat total))
            (fdiv (of_nat cj) (of_nat total))
            (fdiv (of_nat cs) (of_nat total))) = true).
Proof.
  split; [reflexivity|]. split; [reflexivity|].
  apply (fallback_scores_normalized ascii_lower Sample.no_float
           Sample.unreachable (lit "fear happy glad love joy sad") []);
    reflexivity.
Defined.

(** C4, as stated, fails: with the remote service unreachable, the scores
    for "fear happy glad love joy sad" are 1/6, 4/6 and 1/6 rounded to
    binary64; their float sum is 1 - 2^-53 and their exact sum is
    1 - 2^-54, not 1.0. *)
Lemma normalized_sum_not_one :
  exists a d f j s dom t',
    run (emotion_detector ascii_lower Sample.no_float Sample.unreachable
           (lit "fear happy glad love joy sad"))
    = (inr (Spec.ok_result a d f j s dom), t') /\
    feqb (Spec.float_sum a d f j s) one = false /\
    Qeq_bool (Spec.exact_sum a d f j s) 1 = false.
Proof.
  do 7 eexists. split; [vm_compute; reflexivity|].
  split; vm_compute; reflexivity.
Qed.

Lemma well_normalized_finite (a d f j s : float) :
  well_normalized (Spec.fields a d f j s) = true ->
  forallb (fun kv => Spec.finite_nonneg (snd kv)) (Spec.fields a d f j s)
  = true.
Proof.
  unfold well_normalized, Spec.fields, values. cbn [map snd].
  intros H. apply andb_true_iff in H as [H _].
  apply andb_true_iff in H as [H _]. apply andb_true_iff in H as [H _].
  exact H.
Qed.

Lemma ok_result_well_formed (a d f j s : float) (dom : pystr) :
  forallb (fun kv => Spec.finite_nonneg (snd kv)) (Spec.fields a d f j s)
  = true ->
  In dom Spec.names ->
  Spec.well_formed (Spec.ok_result a d f j s dom) = true.
Proof.
  intros Hs Hd. unfold Spec.well_formed.
  change (Spec.scores_of (Spec.ok_result a d f j s dom))
    with (Some (Spec.fields a d f j s)).
  change (Spec.dominant (Spec.ok_result a d f j s dom)) with (Some dom).
  cbv beta iota. rewrite Hs. now apply names_mem.
Qed.

(** The heuristic always yields a well-formed ok result. *)
Lemma on_text_well_formed (str_lower : pystr -> pystr) (text : pystr) :
  Spec.well_formed (on_text str_lower text) = true.
Proof.
  unfold on_text, outcome. cbv zeta.
  match goal with
  | |- context [(?n =? 0)%nat] => destruct (n =? 0)%nat eqn:Et
  end.
  - vm_compute. reflexivity.
  - apply Nat.eqb_neq in Et.
    pose proof (scores_well_normalized (str_lower text) Et) as Hn.
    match goal with
    | |- context [ranked (scores ?ca ?cd ?cf ?cj ?cs)] =>
        destruct (ranked_scores ca cd cf cj cs) as (dom & -> & Hdom)
    end.
    apply ok_result_well_formed; [|exact Hdom].
    now apply well_normalized_finite.
Qed.

(** C3, as amended.  Whenever [emotion_detector] returns an ok result, all
    five scores are present as floats and the dominant emotion is one of the
    five field names.  When the result comes from the fallback heuristic
    (the remote call failed) the scores are moreover finite and
    non-negative.  On the remote-success path the scores are exactly the
    values [float] yields for the payload, without any check of their range
    (so they are finite and non-negative exactly when those values are). *)
Theorem ok_result_invariant (str_lower : pystr -> pystr)
  (str_to_float : pystr -> option float) (remote : request -> Res response)
  (text : pystr) (t : trace) (r : result) (t' : trace) :
  emotion_detector str_lower str_to_float remote text t = (inr r, t') ->
  Spec.ok r = true ->
  (exists a d f j s dom,
     r = Spec.ok_result a d f j s dom /\ In dom Spec.names) /\
  (Spec.failed (Spec.classify (py_float str_to_float)
                  (remote (watson_request text))) = true ->
   Spec.well_formed r = true) /\
  (forall supplied,
     Spec.classify (py_float str_to_float) (remote (watson_request text))
     = Spec.Success supplied ->
     Spec.scores_of r = Some supplied).
Proof.
  intros Hrun Hok. split; [|split].
  - destruct (emotion_detector_shape str_lower str_to_float remote text t)
      as (r0 & t0 & Hrun0 & Hshape).
    rewrite Hrun in Hrun0. injection Hrun0 as <- <-.
    destruct Hshape as [-> | (a & d & f & j & s & ->)]; [discriminate|].
    destruct (ranked_dominant_in a d f j s) as (dom & -> & Hdom).
    now exists a, d, f, j, s, dom.
  - intros Hf.
    destruct (Spec.blank text) eqn:Hb.
    + rewrite emotion_detector_cases, Hb in Hrun.
      injection Hrun as <- <-. discriminate.
    + rewrite (fallback_paths _ _ _ _ _ Hb Hf) in Hrun.
      injection Hrun as <- <-. apply on_text_well_formed.
  - intros sc Hc. rewrite emotion_detector_cases in Hrun.
    destruct (Spec.blank text).
    + injection Hrun as <- <-. discriminate.
    + cbv zeta in Hrun. rewrite Hc in Hrun. injection Hrun as <- <-.
      destruct (classify_success_fields _ _ _ Hc) as (a & d & f & j & s & ->).
      reflexivity.
Qed.

Lemma ok_result_invariant_witness :
  let text := lit "I hate this, it's so sad" in
  let r := Spec.ok_result (dec 1 2) zero zero zero (dec 1 2) (lit "anger") in
  let t' := [EvPost (watson_request text); EvRuleBased text] in
  emotion_detector ascii_lower Sample.no_float Sample.unreachable text []
  = (inr r, t') /\
  Spec.ok r = true /\
  (exists a d f j s dom,
     r = Spec.ok_result a d f j s dom /\ In dom Spec.names) /\
  (Spec.failed (Spec.classify (py_float Sample.no_float)
                  (Sample.unreachable (watson_request text))) = true ->
   Spec.well_formed r = true) /\
  (forall supplied,
     Spec.classify (py_float Sample.no_float)
       (Sample.unreachable (watson_request text))
     = Spec.Success supplied ->
     Spec.scores_of r = Some supplied).
Proof.
  split; [vm_compute; reflexivity|]. split; [reflexivity|].
  apply (ok_result_invariant ascii_lower Sample.no_float Sample.unreachable
           (lit "I hate this, it's so sad") []
           (Spec.ok_result (dec 1 2) zero zero zero (dec 1 2) (lit "anger"))
           [EvPost (watson_request (lit "I hate this, it's so sad"));
            EvRuleBased (lit "I hate this, it's so sad")]).
  - vm_compute; reflexivity.
  - reflexivity.
Defined.

(** C3, as stated, fails: a 200 response whose payload gives joy the value
    -0.5 yields an ok result whose joy score is -0.5. *)
Lemma negative_remote_score :
  exists r t',
    run (emotion_detector ascii_lower Sample.no_float
           (Sample.answers 200
              (inr (Sample.payload [(lit "joy", PFloat Sample.minus_half)])))
           (lit "hello"))
    = (inr r, t') /\
    Spec.ok r = true /\
    Spec.score r (lit "joy") = Some Sample.minus_half /\
    Spec.finite_nonneg Sample.minus_half = false /\
    Spec.well_formed r = false.
Proof.
  do 2 eexists. split; [vm_compute; reflexivity|].
  repeat split.
Qed.

Lemma first_with_fields (a d f j s m : float) (k : pystr) :
  Spec.first_with (Spec.fields a d f j s) m = Some k ->
  exists v, lookup (Spec.fields a d f j s) k = Some v /\ feqb v m = true.
Proof.
  unfold Spec.fields. cbn [Spec.first_with].
  destruct (feqb a m) eqn:Ea; [intros [= <-]; now exists a|].
  destruct (feqb d m) eqn:Ed; [intros [= <-]; now exists d|].
  destruct (feqb f m) eqn:Ef; [intros [= <-]; now exists f|].
  destruct (feqb j m) eqn:Ej; [intros [= <-]; now exists j|].
  destruct (feqb s m) eqn:Es; [intros [= <-]; now exists s|].
  discriminate.
Qed.

(** When no score is NaN, the key [max] selects is an argmax, and the first
    one in declaration order. *)
Lemma ranked_argmax (a d f j s : float) :
  let dom := max_from (lit "anger", a)
               [(lit "disgust", d); (lit "fear", f); (lit "joy", j);
                (lit "sadness", s)] in
  Spec.no_nan (Spec.fields a d f j s) = true ->
  Spec.argmax (Spec.fields a d f j s) dom = true /\
  exists m, Spec.is_max (Spec.fields a d f j s) m = true /\
            Spec.first_with (Spec.fields a d f j s) m = Some dom.
Proof.
  intros dom Hnan.
  destruct (max_exists (Spec.fields a d f j s)) as [m Hm];
    [discriminate | exact Hnan |].
  pose proof (max_key_first _ _ _ Hm) as Hfirst. fold dom in Hfirst.
  split; [|now exists m].
  destruct (first_with_fields _ _ _ _ _ _ _ Hfirst) as (v & Hv & Hvm).
  unfold Spec.argmax. rewrite Hv.
  unfold Spec.is_max in Hm. apply andb_true_iff in Hm as [Hle _].
  rewrite forallb_forall in Hle. apply forallb_forall. intros x Hx.
  apply fleb_trans with m; [now apply Hle | now apply feqb_fleb].
Qed.

(** C5, as amended.  For every non-blank input, when the remote call returns
    HTTP 200 with a parseable payload, the result is ok and its five scores
    are the values the payload supplies for the five named emotions as
    [float] converts them (a float is kept as it is), a missing emotion
    counting as 0.0; the dominant emotion is one of the five names and,
    provided none of the five scores is NaN, it is the argmax over the five
    fields, the first in declaration order among equal maxima. *)
Theorem remote_success_scores (str_lower : pystr -> pystr)
  (str_to_float : pystr -> option float) (remote : request -> Res response)
  (text : pystr) (t : trace) (body : pyval) (em : dict pyval)
  (a d f j s : float) :
  Spec.blank text = false ->
  remote (watson_request text) = inr (mkResponse 200 (inr body)) ->
  Spec.emotions_of body = Some em ->
  Spec.supplied (py_float str_to_float) em (lit "anger") = Some a ->
  Spec.supplied (py_float str_to_float) em (lit "disgust") = Some d ->
  Spec.supplied (py_float str_to_float) em (lit "fear") = Some f ->
  Spec.supplied (py_float str_to_float) em (lit "joy") = Some j ->
  Spec.supplied (py_float str_to_float) em (lit "sadness") = Some s ->
  exists dom t',
    emotion_detector str_lower str_to_float remote text t
    = (inr (Spec.ok_result a d f j s dom), t') /\
    Spec.ok (Spec.ok_result a d f j s dom) = true /\
    In dom Spec.names /\
    (Spec.no_nan (Spec.fields a d f j s) = true ->
     Spec.argmax (Spec.fields a d f j s) dom = true /\
     exists m, Spec.is_max (Spec.fields a d f j s) m = true /\
               Spec.first_with (Spec.fields a d f j s) m = Some dom).
Proof.
  intros Hb Hr He Ha Hd Hf Hj Hs.
  eexists _, _. split.
  - rewrite emotion_detector_cases, Hb. cbv zeta. rewrite Hr.
    unfold Spec.classify, Spec.payload_scores.
    cbn [status_code json]. change (200 =? 400) with false.
    change (200 =? 200) with true. cbv iota.
    rewrite He, Ha, Hd, Hf, Hj, Hs. rewrite ranked_fields. reflexivity.
  - split; [reflexivity|]. split; [exact (max_from_in _ _)|].
    apply ranked_argmax.
Qed.

(** A float of the payload is kept as it is, a missing field counts as
    0.0. *)
Lemma supplied_float (str_to_float : pystr -> option float)
  (em : dict pyval) (k : pystr) (x : float) :
  lookup em k = Some (PFloat x) ->
  Spec.supplied (py_float str_to_float) em k = Some x.
Proof. intros Hk. unfold Spec.supplied. now rewrite Hk. Qed.

Lemma supplied_missing (str_to_float : pystr -> option float)
  (em : dict pyval) (k : pystr) :
  lookup em k = None ->
  Spec.supplied (py_float str_to_float) em k = Some zero.
Proof. intros Hk. unfold Spec.supplied. now rewrite Hk. Qed.

Lemma remote_success_scores_witness :
  let text := lit "hello" in
  let em := [(lit "joy", PFloat (dec 9 10)); (lit "anger", PFloat (dec 1 10))]
  in
  let remote := Sample.answers 200 (inr (Sample.payload em)) in
  Spec.blank text = false /\
  remote (watson_request text)
  = inr (mkResponse 200 (inr (Sample.payload em))) /\
  Spec.emotions_of (Sample.payload em) = Some em /\
  Spec.supplied (py_float Sample.no_float) em (lit "anger")
  = Some (dec 1 10) /\
  Spec.supplied (py_float Sample.no_float) em (lit "disgust") = Some zero /\
  Spec.supplied (py_float Sample.no_float) em (lit "fear") = Some zero /\
  Spec.supplied (py_float Sample.no_float) em (lit "joy")
  = Some (dec 9 10) /\
  Spec.supplied (py_float Sample.no_float) em (lit "sadness") = Some zero /\
  exists dom t',
    emotion_detector ascii_lower Sample.no_float remote text []
    = (inr (Spec.ok_result (dec 1 10) zero zero (dec 9 10) zero dom), t') /\
    Spec.ok (Spec.ok_result (dec 1 10) zero zero (dec 9 10) zero dom)
    = true /\
    In dom Spec.names /\
    (Spec.no_nan (Spec.fields (dec 1 10) zero zero (dec 9 10) zero) = true ->
     Spec.argmax (Spec.fields (dec 1 10) zero zero (dec 9 10) zero) dom
     = true /\
     exists m,
       Spec.is_max (Spec.fields (dec 1 10) zero zero (dec 9 10) zero) m
       = true /\
       Spec.first_with (Spec.fields (dec 1 10) zero zero (dec 9 10) zero) m
       = Some dom).
Proof.
  cbv zeta. do 8 (split; [reflexivity|]).
  apply (remote_success_scores ascii_lower Sample.no_float
           (Sample.answers 200
              (inr (Sample.payload
                      [(lit "joy", PFloat (dec 9 10));
                       (lit "anger", PFloat (dec 1 10))])))
           (lit "hello") []
           (Sample.payload
              [(lit "joy", PFloat (dec 9 10));
               (lit "anger", PFloat (dec 1 10))])
           [(lit "joy", PFloat (dec 9 10)); (lit "anger", PFloat (dec 1 10))]);
    reflexivity.
Defined.

(** C5, as stated, fails: a 200 response whose payload gives anger the
    value NaN, joy the value 0.9 and sadness the integer 2^53 + 1 yields the
    sadness score 2^53, which differs from the value supplied, and the
    dominant emotion anger, which is not an argmax: the scores of joy and
    sadness are not below or equal to it. *)
Lemma nan_score_dominant :
  exists r t' scores sadness,
    run (emotion_detector ascii_lower Sample.no_float
           (Sample.answers 200
              (inr (Sample.payload
                      [(lit "anger", PFloat S754_nan);
                       (lit "joy", PFloat (dec 9 10));
                       (lit "sadness", PInt 9007199254740993)])))
           (lit "hello"))
    = (inr r, t') /\
    Spec.ok r = true /\
    Spec.scores_of r = Some scores /\
    lookup scores (lit "sadness") = Some sadness /\
    eq_int (PFloat sadness) 9007199254740993 = false /\
    Spec.dominant r = Some (lit "anger") /\
    Spec.argmax scores (lit "anger") = false.
Proof.
  do 4 eexists. split; [vm_compute; reflexivity|].
  repeat split.
Qed.








(** ** The web handler *)

Lemma render_sentence (py_repr : pyval -> pystr)
  (a d f j s dom : pyval) :
  render py_repr a d f j s dom = Spec.sentence (py_str py_repr) a d f j s dom.
Proof.
  unfold render, Spec.sentence.
  change (lit "For the given statement, the system response is 'anger': ")
    with (lit "For the given statement, the system response is "
          ++ lit "'anger': ").
  change (lit ", 'disgust': ") with (lit ", " ++ lit "'disgust': ").
  change (lit ", 'joy': ") with (lit ", " ++ lit "'joy': ").
  change (lit ". The dominant emotion is ")
    with (lit ". " ++ lit "The dominant emotion is ").
  rewrite <- !app_assoc. reflexivity.
Qed.

(** C9, as amended.  For every POST to /emotionDetector with form field
    text, the handler calls the classifier on the text with its leading and
    trailing whitespace removed; if the result is rejected it responds with
    the literal "Invalid text! Please try again!", otherwise with the
    sentence listing the five scores in the order anger, disgust, fear, joy,
    sadness, followed by the dominant emotion. *)
Theorem handler_response (str_lower : pystr -> pystr)
  (str_to_float : pystr -> option float) (remote : request -> Res response)
  (py_repr : pyval -> pystr) (form : dict pystr) (raw : pystr) (t : trace) :
  lookup form (lit "text") = Some raw ->
  exists r t',
    emotion_detector str_lower str_to_float remote (strip raw) t
    = (inr r, t') /\
    detect_emotion str_lower str_to_float remote py_repr form t
    = (inr (if Spec.rejected r then INVALID_TEXT
            else Spec.sentence (py_str py_repr)
                   (get r (lit "anger")) (get r (lit "disgust"))
                   (get r (lit "fear")) (get r (lit "joy"))
                   (get r (lit "sadness")) (get r (lit "dominant_emotion"))),
       t').
Proof.
  intros Hform.
  destruct (emotion_detector_shape str_lower str_to_float remote
              (strip raw) t) as (r & t' & Hrun & Hshape).
  exists r, t'. split; [exact Hrun|].
  unfold detect_emotion, form_field, Eff.bind at 1, lift at 1.
  rewrite Hform. cbv zeta. unfold Eff.bind at 1. rewrite Hrun.
  destruct Hshape as [-> | (a & d & f & j & s & ->)].
  - reflexivity.
  - rewrite ranked_fields.
    change (Spec.rejected (Spec.ok_result a d f j s _)) with false.
    cbv iota. rewrite <- render_sentence. reflexivity.
Qed.

Lemma handler_response_witness :
  let form := [(lit "text", lit " I am so happy ")] in
  lookup form (lit "text") = Some (lit " I am so happy ") /\
  exists r t',
    emotion_detector ascii_lower Sample.no_float Sample.unreachable
      (strip (lit " I am so happy ")) []
    = (inr r, t') /\
    detect_emotion ascii_lower Sample.no_float Sample.unreachable
      Sample.repr_any form []
    = (inr (if Spec.rejected r then INVALID_TEXT
            else Spec.sentence (py_str Sample.repr_any)
                   (get r (lit "anger")) (get r (lit "disgust"))
                   (get r (lit "fear")) (get r (lit "joy"))
                   (get r (lit "sadness")) (get r (lit "dominant_emotion"))),
       t').
Proof.
  cbv zeta. split; [reflexivity|].
  apply (handler_response ascii_lower Sample.no_float Sample.unreachable
           Sample.repr_any [(lit "text", lit " I am so happy ")]
           (lit " I am so happy ") []).
  reflexivity.
Defined.

(** C9, as stated, fails: when the remote service tells " hi" from "hi",
    calling the classifier on the text of the form field gives the fixed
    message, while the handler, which strips the text first, answers with
    the sentence. *)
Lemma handler_strips_text :
  let form := [(lit "text", lit " hi")] in
  fst (run (handler_as_stated ascii_lower Sample.no_float
              Sample.rejects_padding Sample.repr_any form))
  = inr INVALID_TEXT /\
  fst (run (detect_emotion ascii_lower Sample.no_float
              Sample.rejects_padding Sample.repr_any form))
  = inr (Spec.sentence (py_str Sample.repr_any)
           (PFloat (dec 10 100)) (PFloat (dec 5 100)) (PFloat (dec 5 100))
           (PFloat (dec 60 100)) (PFloat (dec 20 100)) (PStr (lit "joy"))) /\
  fst (run (detect_emotion ascii_lower Sample.no_float
              Sample.rejects_padding Sample.repr_any form))
  <> fst (run (handler_as_stated ascii_lower Sample.no_float
                 Sample.rejects_padding Sample.repr_any form)).
Proof.
  cbv zeta. split; [vm_compute; reflexivity|].
  split; [vm_compute; reflexivity|].
  vm_compute. discriminate.
Qed.

(** * Further properties of the code *)

(** ** The calls [emotion_detector] makes *)

(** X1.  On a non-blank input [emotion_detector] makes exactly one remote
    call, before anything else: a post to [WATSON_URL] with the model
    header, the input text unchanged in the JSON body and a timeout of 8
    seconds.  It is never repeated. *)
Theorem one_remote_call (str_lower : pystr -> pystr)
  (str_to_float : pystr -> option float) (remote : request -> Res response)
  (text : pystr) (t : trace) :
  Spec.blank text = false ->
  exists r rest,
    emotion_detector str_lower str_to_float remote text t
    = (inr r,
       t ++ EvPost
              (mkRequest WATSON_URL WATSON_HEADERS
                 (PDict [(lit "raw_document",
                          PDict [(lit "text", PStr text)])]) 8) :: rest) /\
    remote_calls rest = 0%nat.
Proof.
  intros Hb. rewrite emotion_detector_cases, Hb. cbv zeta.
  destruct (Spec.classify (py_float str_to_float)
              (remote (watson_request text)));
    do 2 eexists; (split; [reflexivity|]); reflexivity.
Qed.

Lemma one_remote_call_witness :
  Spec.blank (lit "I am glad") = false /\
  exists r rest,
    emotion_detector ascii_lower Sample.no_float Sample.unreachable
      (lit "I am glad") []
    = (inr r,
       [] ++ EvPost
               (mkRequest WATSON_URL WATSON_HEADERS
                  (PDict [(lit "raw_document",
                           PDict [(lit "text", PStr (lit "I am glad"))])]) 8)
             :: rest) /\
    remote_calls rest = 0%nat.
Proof.
  split; [reflexivity|].
  apply (one_remote_call ascii_lower Sample.no_float Sample.unreachable
           (lit "I am glad") []).
  reflexivity.
Defined.

Lemma heuristic_calls_post (r : request) :
  heuristic_calls [EvPost r] = 0%nat.
Proof. reflexivity. Qed.

Lemma heuristic_calls_both (r : request) (x : pystr) :
  heuristic_calls [EvPost r; EvRuleBased x] = 1%nat.
Proof. reflexivity. Qed.

(** X2.  The keyword heuristic runs exactly when the input is not blank and
    the remote call failed (transport error, status other than 200 and 400,
    or a body that does not parse); it then runs once, on the input text as
    given. *)
Theorem heuristic_runs_on_failure (str_lower : pystr -> pystr)
  (str_to_float : pystr -> option float) (remote : request -> Res response)
  (text : pystr) (t : trace) :
  exists r t',
    emotion_detector str_lower str_to_float remote text t = (inr r, t') /\
    heuristic_calls t'
    = (heuristic_calls t
       + if negb (Spec.blank text)
            && Spec.failed (Spec.classify (py_float str_to_float)
                              (remote (watson_request text)))
         then 1 else 0)%nat /\
    (forall x, In (EvRuleBased x) t' -> In (EvRuleBased x) t \/ x = text).
Proof.
  rewrite emotion_detector_cases.
  destruct (Spec.blank text).
  - do 2 eexists. split; [reflexivity|]. cbn [negb andb].
    split; [lia | tauto].
  - cbv zeta.
    destruct (Spec.classify (py_float str_to_float)
                (remote (watson_request text)));
      do 2 eexists; (split; [reflexivity|]);
      rewrite heuristic_calls_app; cbn [negb andb Spec.failed];
      (split;
       [first [ rewrite heuristic_calls_post | rewrite heuristic_calls_both ];
        lia|]);
      intros x Hx; apply in_app_or in Hx as [Hx | Hx]; try tauto;
      simpl in Hx; repeat destruct Hx as [Hx | Hx];
      try discriminate; try tauto;
      injection Hx as <-; now right.
Qed.

(** X3.  Every result of [emotion_detector] has exactly the seven keys of
    its docstring, in this order: anger, disgust, fear, joy, sadness,
    dominant_emotion, status_code. *)
Theorem result_has_seven_keys (str_lower : pystr -> pystr)
  (str_to_float : pystr -> option float) (remote : request -> Res response)
  (text : pystr) (t : trace) :
  exists r t',
    emotion_detector str_lower str_to_float remote text t = (inr r, t') /\
    keys r = map lit ["anger"; "disgust"; "fear"; "joy"; "sadness";
                      "dominant_emotion"; "status_code"].
Proof.
  destruct (emotion_detector_shape str_lower str_to_float remote text t)
    as (r & t' & Hrun & [-> | (a & d & f & j & s & ->)]).
  - exists _none_result, t'. split; [exact Hrun | reflexivity].
  - eexists _, t'. split; [exact Hrun | reflexivity].
Qed.

(** X4.  A response whose status is neither 200 nor 400 is never decoded:
    two responses with such a status give the same result whatever their
    bodies, also when one of them carries a well-formed payload. *)
Theorem other_status_ignores_body (str_lower : pystr -> pystr)
  (str_to_float : pystr -> option float)
  (remote remote' : request -> Res response)
  (text : pystr) (t : trace) (code : Z) (body body' : Res pyval) :
  Spec.blank text = false ->
  code <> 200 ->
  code <> 400 ->
  remote (watson_request text) = inr (mkResponse code body) ->
  remote' (watson_request text) = inr (mkResponse code body') ->
  emotion_detector str_lower str_to_float remote text t
  = emotion_detector str_lower str_to_float remote' text t.
Proof.
  intros Hb H200 H400 Hr Hr'. rewrite !emotion_detector_cases, Hb. cbv zeta.
  rewrite Hr, Hr'. unfold Spec.classify. cbn [status_code].
  apply Z.eqb_neq in H200, H400. now rewrite H200, H400.
Qed.

Lemma other_status_ignores_body_witness :
  let body := inr (Sample.payload [(lit "anger", PFloat one)]) in
  let body' := inl JSONDecodeError in
  Spec.blank (lit "I love it") = false /\
  500 <> 200 /\
  500 <> 400 /\
  Sample.answers 500 body (watson_request (lit "I love it"))
  = inr (mkResponse 500 body) /\
  Sample.answers 500 body' (watson_request (lit "I love it"))
  = inr (mkResponse 500 body') /\
  emotion_detector ascii_lower Sample.no_float (Sample.answers 500 body)
    (lit "I love it") []
  = emotion_detector ascii_lower Sample.no_float (Sample.answers 500 body')
      (lit "I love it") [].
Proof.
  cbv zeta. split; [reflexivity|]. split; [lia|]. split; [lia|].
  split; [reflexivity|]. split; [reflexivity|].
  apply (other_status_ignores_body ascii_lower Sample.no_float
           (Sample.answers 500
              (inr (Sample.payload [(lit "anger", PFloat one)])))
           (Sample.answers 500 (inl JSONDecodeError))
           (lit "I love it") [] 500
           (inr (Sample.payload [(lit "anger", PFloat one)]))
           (inl JSONDecodeError));
    (reflexivity || lia).
Defined.

(** ** The payload of a 200 response *)

(** X5.  The parse of a 200 response succeeds exactly when the body decodes
    to an object whose [emotionPredictions] is a list with a first element,
    that element is an object whose [emotion] is an object, and each of the
    five named values that is present converts with [float]; every other
    body makes it raise, and the detector falls back. *)
Theorem parse_response_succeeds_iff (str_to_float : pystr -> option float)
  (resp : response) :
  (exists r, parse_response str_to_float resp = inr r) <->
  (exists j em a d f jy s,
     json resp = inr j /\
     Spec.emotions_of j = Some em /\
     Spec.supplied (py_float str_to_float) em (lit "anger") = Some a /\
     Spec.supplied (py_float str_to_float) em (lit "disgust") = Some d /\
     Spec.supplied (py_float str_to_float) em (lit "fear") = Some f /\
     Spec.supplied (py_float str_to_float) em (lit "joy") = Some jy /\
     Spec.supplied (py_float str_to_float) em (lit "sadness") = Some s).
Proof.
  split.
  - intros [r Hr].
    destruct (Spec.payload_scores (py_float str_to_float) (json resp))
      as [sc|] eqn:Hp.
    + unfold Spec.payload_scores in Hp.
      destruct (json resp) as [e|j] eqn:Hj; [discriminate|].
      destruct (Spec.emotions_of j) as [em|] eqn:He; [|discriminate].
      destruct (Spec.supplied (py_float str_to_float) em (lit "anger"))
        as [a|] eqn:Ha; [|discriminate].
      destruct (Spec.supplied (py_float str_to_float) em (lit "disgust"))
        as [d|] eqn:Hd; [|discriminate].
      destruct (Spec.supplied (py_float str_to_float) em (lit "fear"))
        as [f|] eqn:Hf; [|discriminate].
      destruct (Spec.supplied (py_float str_to_float) em (lit "joy"))
        as [jy|] eqn:Hjy; [|discriminate].
      destruct (Spec.supplied (py_float str_to_float) em (lit "sadness"))
        as [s|] eqn:Hs; [|discriminate].
      exists j, em, a, d, f, jy, s. repeat split; assumption.
    + destruct (parse_response_failure _ _ Hp) as [e He]. congruence.
  - intros (j & em & a & d & f & jy & s & Hj & He & Ha & Hd & Hf & Hjy & Hs).
    assert (Hp : Spec.payload_scores (py_float str_to_float) (json resp)
                 = Some (Spec.fields a d f jy s)).
    { unfold Spec.payload_scores. now rewrite Hj, He, Ha, Hd, Hf, Hjy, Hs. }
    destruct (parse_response_success _ _ _ Hp) as (? & ? & ? & ? & ? & _ & H).
    eexists. exact H.
Qed.

(** X6.  When the emotion object of a 200 response names none of the five
    emotions, all five scores are 0.0 and the dominant emotion is anger, the
    first field. *)
Theorem no_named_emotion_gives_anger (str_lower : pystr -> pystr)
  (str_to_float : pystr -> option float) (remote : request -> Res response)
  (text : pystr) (t : trace) (body : pyval) (em : dict pyval) :
  Spec.blank text = false ->
  remote (watson_request text) = inr (mkResponse 200 (inr body)) ->
  Spec.emotions_of body = Some em ->
  forallb (fun k => match lookup em k with None => true | Some _ => false end)
    Spec.names = true ->
  exists t',
    emotion_detector str_lower str_to_float remote text t
    = (inr (Spec.ok_result zero zero zero zero zero (lit "anger")), t').
Proof.
  intros Hb Hr He Hn.
  cbn [forallb Spec.names map] in Hn.
  repeat (apply andb_true_iff in Hn as [? Hn]).
  assert (Hs : forall k, lookup em k = None ->
               Spec.supplied (py_float str_to_float) em k = Some zero)
    by (intros k Hk; unfold Spec.supplied; now rewrite Hk).
  eexists. rewrite emotion_detector_cases, Hb. cbv zeta. rewrite Hr.
  unfold Spec.classify, Spec.payload_scores. cbn [status_code json].
  change (200 =? 400) with false. change (200 =? 200) with true. cbv iota.
  rewrite He.
  rewrite !Hs;
    try match goal with
        | H : match lookup em ?k with _ => _ end = true |- lookup em ?k = None =>
            destruct (lookup em k); [discriminate H | reflexivity]
        end.
  reflexivity.
Qed.

Lemma no_named_emotion_gives_anger_witness :
  let em := [(lit "surprise", PFloat one)] in
  let remote := Sample.answers 200 (inr (Sample.payload em)) in
  Spec.blank (lit "hello") = false /\
  remote (watson_request (lit "hello"))
  = inr (mkResponse 200 (inr (Sample.payload em))) /\
  Spec.emotions_of (Sample.payload em) = Some em /\
  forallb (fun k => match lookup em k with None => true | Some _ => false end)
    Spec.names = true /\
  exists t',
    emotion_detector ascii_lower Sample.no_float remote (lit "hello") []
    = (inr (Spec.ok_result zero zero zero zero zero (lit "anger")), t').
Proof.
  cbv zeta. do 4 (split; [reflexivity|]).
  apply (no_named_emotion_gives_anger ascii_lower Sample.no_float
           (Sample.answers 200
              (inr (Sample.payload [(lit "surprise", PFloat one)])))
           (lit "hello") []
           (Sample.payload [(lit "surprise", PFloat one)])
           [(lit "surprise", PFloat one)]); reflexivity.
Defined.

(** ** The keyword heuristic *)

Lemma filter_nil_existsb {A} (p : A -> bool) (l : list A) :
  filter p l = [] -> existsb p l = false.
Proof.
  induction l as [|x l IH]; simpl; [reflexivity|].
  destruct (p x); [discriminate | exact IH].
Qed.

Lemma keyword_count_zero (text_l : pystr) (words : list pystr) :
  Spec.keyword_count text_l words = 0%nat ->
  existsb (fun w => contains w text_l) words = false.
Proof.
  unfold Spec.keyword_count. intros H. apply filter_nil_existsb.
  now apply length_zero_iff_nil.
Qed.

Lemma any_keyword_total (text_l : pystr) :
  Spec.any_keyword text_l = true ->
  (Spec.keyword_count text_l anger_words
   + Spec.keyword_count text_l disgust_words
   + Spec.keyword_count text_l fear_words
   + Spec.keyword_count text_l joy_words
   + Spec.keyword_count text_l sadness_words)%nat <> 0%nat.
Proof.
  intros Hk Ht.
  unfold Spec.any_keyword, Spec.all_words in Hk.
  rewrite !existsb_app in Hk.
  rewrite !keyword_count_zero in Hk by lia. discriminate.
Qed.

(** With a keyword in the text, the fallback returns the normalized
    counts. *)
Lemma fallback_ranked (str_lower : pystr -> pystr)
  (str_to_float : pystr -> option float) (remote : request -> Res response)
  (text : pystr) (t : trace) :
  Spec.blank text = false ->
  Spec.failed (Spec.classify (py_float str_to_float)
                 (remote (watson_request text))) = true ->
  Spec.any_keyword (str_lower text) = true ->
  emotion_detector str_lower str_to_float remote text t
  = (inr (ranked
            (scores (Spec.keyword_count (str_lower text) anger_words)
               (Spec.keyword_count (str_lower text) disgust_words)
               (Spec.keyword_count (str_lower text) fear_words)
               (Spec.keyword_count (str_lower text) joy_words)
               (Spec.keyword_count (str_lower text) sadness_words))),
     t ++ [EvPost (watson_request text); EvRuleBased text]).
Proof.
  intros Hb Hf Hk. rewrite (fallback_paths _ _ _ _ _ Hb Hf).
  unfold on_text, outcome. cbv zeta.
  apply any_keyword_total in Hk. apply Nat.eqb_neq in Hk. now rewrite Hk.
Qed.

(** On every vector of counts, the key [max] selects among the normalized
    scores is the first category with the largest count. *)
Lemma grid_dominant_largest :
  on_grid (fun ca cd cf cj cs =>
             (ca + cd + cf + cj + cs =? 0)%nat
             || match Spec.dominant (ranked (scores ca cd cf cj cs)),
                      Spec.first_with_count
                        [(lit "anger", ca); (lit "disgust", cd);
                         (lit "fear", cf); (lit "joy", cj);
                         (lit "sadness", cs)]
                        (Nat.max ca (Nat.max cd (Nat.max cf
                           (Nat.max cj (Nat.max cs 0))))) with
                | Some k, Some k' => PyStr.eqb k k'
                | _, _ => false
                end) = true.
Proof. vm_compute. reflexivity. Qed.

(** X7.  On the fallback path, when some keyword occurs, the dominant
    emotion is the category with the most matching keywords, the first one
    in declaration order when several categories have the most. *)
Theorem dominant_has_most_keywords (str_lower : pystr -> pystr)
  (str_to_float : pystr -> option float) (remote : request -> Res response)
  (text : pystr) (t : trace) :
  Spec.blank text = false ->
  Spec.failed (Spec.classify (py_float str_to_float)
                 (remote (watson_request text))) = true ->
  Spec.any_keyword (str_lower text) = true ->
  exists r t' dom,
    emotion_detector str_lower str_to_float remote text t = (inr r, t') /\
    Spec.dominant r = Some dom /\
    Spec.first_with_count (Spec.counts (str_lower text))
      (Spec.max_count (Spec.counts (str_lower text))) = Some dom.
Proof.
  intros Hb Hf Hk.
  pose proof (any_keyword_total _ Hk) as Ht.
  rewrite (fallback_ranked _ _ _ _ _ Hb Hf Hk).
  pose proof (on_grid_sound _ grid_dominant_largest
                (Spec.keyword_count (str_lower text) anger_words)
                (Spec.keyword_count (str_lower text) disgust_words)
                (Spec.keyword_count (str_lower text) fear_words)
                (Spec.keyword_count (str_lower text) joy_words)
                (Spec.keyword_count (str_lower text) sadness_words)
                (keyword_count_le _ _) (keyword_count_le _ _)
                (keyword_count_le _ _) (keyword_count_le _ _)
                (keyword_count_le _ _)) as H.
  cbv beta in H. apply orb_true_iff in H as [H | H].
  { apply Nat.eqb_eq in H. contradiction. }
  destruct (Spec.dominant _) as [k|] eqn:Hd; [|discriminate].
  destruct (Spec.first_with_count _ _) as [k'|] eqn:Hc; [|discriminate].
  apply pystr_eqb_eq in H. subst k'.
  eexists _, _, k. split; [reflexivity|]. split; [exact Hd|].
  unfold Spec.counts, Spec.max_count. cbn [fold_right snd].
  first [exact Hc | reflexivity].
Qed.

Lemma dominant_has_most_keywords_witness :
  let text := lit "So sad, so depressed, yet glad" in
  Spec.blank text = false /\
  Spec.failed (Spec.classify (py_float Sample.no_float)
                 (Sample.unreachable (watson_request text))) = true /\
  Spec.any_keyword (ascii_lower text) = true /\
  exists r t' dom,
    emotion_detector ascii_lower Sample.no_float Sample.unreachable text []
    = (inr r, t') /\
    Spec.dominant r = Some dom /\
    Spec.first_with_count (Spec.counts (ascii_lower text))
      (Spec.max_count (Spec.counts (ascii_lower text))) = Some dom.
Proof.
  cbv zeta. do 3 (split; [reflexivity|]).
  apply (dominant_has_most_keywords ascii_lower Sample.no_float
           Sample.unreachable (lit "So sad, so depressed, yet glad") []);
    reflexivity.
Defined.

(** On every vector of counts, a normalized score is zero exactly when its
    count is, and no score exceeds 1.0. *)
Lemma grid_score_zero :
  on_grid (fun ca cd cf cj cs =>
             (ca + cd + cf + cj + cs =? 0)%nat
             || match values (scores ca cd cf cj cs) with
                | [a; d; f; j; s] =>
                    Bool.eqb (is_zero a) (ca =? 0)%nat
                    && Bool.eqb (is_zero d) (cd =? 0)%nat
                    && Bool.eqb (is_zero f) (cf =? 0)%nat
                    && Bool.eqb (is_zero j) (cj =? 0)%nat
                    && Bool.eqb (is_zero s) (cs =? 0)%nat
                    && forallb (fun x => fleb x one) [a; d; f; j; s]
                | _ => false
                end) = true.
Proof. vm_compute. reflexivity. Qed.

Lemma scores_zero_facts (text_l : pystr) :
  let ca := Spec.keyword_count text_l anger_words in
  let cd := Spec.keyword_count text_l disgust_words in
  let cf := Spec.keyword_count text_l fear_words in
  let cj := Spec.keyword_count text_l joy_words in
  let cs := Spec.keyword_count text_l sadness_words in
  let total := of_nat (ca + cd + cf + cj + cs) in
  Spec.any_keyword text_l = true ->
  is_zero (fdiv (of_nat ca) total) = (ca =? 0)%nat /\
  is_zero (fdiv (of_nat cd) total) = (cd =? 0)%nat /\
  is_zero (fdiv (of_nat cf) total) = (cf =? 0)%nat /\
  is_zero (fdiv (of_nat cj) total) = (cj =? 0)%nat /\
  is_zero (fdiv (of_nat cs) total) = (cs =? 0)%nat /\
  forallb (fun x => fleb x one)
    [fdiv (of_nat ca) total; fdiv (of_nat cd) total; fdiv (of_nat cf) total;
     fdiv (of_nat cj) total; fdiv (of_nat cs) total] = true.
Proof.
  intros ca cd cf cj cs total Hk.
  pose proof (any_keyword_total _ Hk) as Ht.
  pose proof (on_grid_sound _ grid_score_zero ca cd cf cj cs
                (keyword_count_le _ _) (keyword_count_le _ _)
                (keyword_count_le _ _) (keyword_count_le _ _)
                (keyword_count_le _ _)) as H.
  cbv beta in H. apply orb_true_iff in H as [H | H].
  { apply Nat.eqb_eq in H. contradiction. }
  unfold scores, Spec.fields, values in H. cbn [map snd] in H. fold total in H.
  apply andb_true_iff in H as [H H6]. apply andb_true_iff in H as [H H5].
  apply andb_true_iff in H as [H H4]. apply andb_true_iff in H as [H H3].
  apply andb_true_iff in H as [H1 H2].
  apply eqb_prop in H1, H2, H3, H4, H5. now repeat split.
Qed.

(** X8.  On the fallback path, when some keyword occurs, the score of a
    category is 0.0 exactly when none of its keywords occurs in the
    lower-cased text, and no score exceeds 1.0. *)
Theorem score_zero_iff_no_keyword (str_lower : pystr -> pystr)
  (str_to_float : pystr -> option float) (remote : request -> Res response)
  (text : pystr) (t : trace) :
  Spec.blank text = false ->
  Spec.failed (Spec.classify (py_float str_to_float)
                 (remote (watson_request text))) = true ->
  Spec.any_keyword (str_lower text) = true ->
  exists a d f j s dom t',
    emotion_detector str_lower str_to_float remote text t
    = (inr (Spec.ok_result a d f j s dom), t') /\
    is_zero a = (Spec.keyword_count (str_lower text) anger_words =? 0)%nat /\
    is_zero d = (Spec.keyword_count (str_lower text) disgust_words =? 0)%nat /\
    is_zero f = (Spec.keyword_count (str_lower text) fear_words =? 0)%nat /\
    is_zero j = (Spec.keyword_count (str_lower text) joy_words =? 0)%nat /\
    is_zero s = (Spec.keyword_count (str_lower text) sadness_words =? 0)%nat /\
    forallb (fun x => fleb x one) [a; d; f; j; s] = true.
Proof.
  intros Hb Hf Hk.
  rewrite (fallback_ranked _ _ _ _ _ Hb Hf Hk).
  unfold scores. cbv zeta. rewrite ranked_fields.
  do 7 eexists. split; [reflexivity|].
  exact (scores_zero_facts (str_lower text) Hk).
Qed.

Lemma score_zero_iff_no_keyword_witness :
  let text := lit "I am scared and terrified, but I love it" in
  Spec.blank text = false /\
  Spec.failed (Spec.classify (py_float Sample.no_float)
                 (Sample.unreachable (watson_request text))) = true /\
  Spec.any_keyword (ascii_lower text) = true /\
  exists a d f j s dom t',
    emotion_detector ascii_lower Sample.no_float Sample.unreachable text []
    = (inr (Spec.ok_result a d f j s dom), t') /\
    is_zero a = (Spec.keyword_count (ascii_lower text) anger_words =? 0)%nat /\
    is_zero d
    = (Spec.keyword_count (ascii_lower text) disgust_words =? 0)%nat /\
    is_zero f = (Spec.keyword_count (ascii_lower text) fear_words =? 0)%nat /\
    is_zero j = (Spec.keyword_count (ascii_lower text) joy_words =? 0)%nat /\
    is_zero s
    = (Spec.keyword_count (ascii_lower text) sadness_words =? 0)%nat /\
    forallb (fun x => fleb x one) [a; d; f; j; s] = true.
Proof.
  cbv zeta. do 3 (split; [reflexivity|]).
  apply (score_zero_iff_no_keyword ascii_lower Sample.no_float
           Sample.unreachable
           (lit "I am scared and terrified, but I love it") []);
    reflexivity.
Defined.

Lemma contains_trans (u w s : pystr) :
  contains u w = true -> contains w s = true -> contains u s = true.
Proof.
  rewrite !contains_spec. intros (p & q & ->) (p' & q' & ->).
  exists (p' ++ p), (q ++ q'). now rewrite <- !app_assoc.
Qed.

Lemma keyword_count_pos (text_l w : pystr) (words : list pystr) :
  In w words -> contains w text_l = true ->
  (Spec.keyword_count text_l words =? 0)%nat = false.
Proof.
  intros Hin Hc. apply Nat.eqb_neq. intros H0.
  apply keyword_count_zero in H0.
  assert (He : existsb (fun w => contains w text_l) words = true)
    by (apply existsb_exists; now exists w).
  congruence.
Qed.

(** X9.  The keywords are matched as substrings, so "unhappy" also matches
    the joy keyword "happy": on the fallback path every text whose
    lower-cased form contains "unhappy" gets a non-zero joy score besides a
    non-zero sadness score. *)
Theorem unhappy_scores_joy (str_lower : pystr -> pystr)
  (str_to_float : pystr -> option float) (remote : request -> Res response)
  (text : pystr) (t : trace) :
  Spec.blank text = false ->
  Spec.failed (Spec.classify (py_float str_to_float)
                 (remote (watson_request text))) = true ->
  contains (lit "unhappy") (str_lower text) = true ->
  exists a d f j s dom t',
    emotion_detector str_lower str_to_float remote text t
    = (inr (Spec.ok_result a d f j s dom), t') /\
    is_zero j = false /\
    is_zero s = false.
Proof.
  intros Hb Hf Hu.
  assert (Hh : contains (lit "happy") (str_lower text) = true)
    by (apply contains_trans with (lit "unhappy"); [reflexivity | exact Hu]).
  assert (Hk : Spec.any_keyword (str_lower text) = true).
  { apply existsb_exists. exists (lit "unhappy"). split; [|exact Hu].
    unfold Spec.all_words. rewrite !in_app_iff. do 4 right.
    simpl. tauto. }
  rewrite (fallback_ranked _ _ _ _ _ Hb Hf Hk).
  unfold scores. cbv zeta. rewrite ranked_fields.
  destruct (scores_zero_facts (str_lower text) Hk)
    as (_ & _ & _ & Hj & Hs & _).
  do 7 eexists. split; [reflexivity|]. split.
  - rewrite Hj. apply keyword_count_pos with (lit "happy"); [|exact Hh].
    simpl. tauto.
  - rewrite Hs. apply keyword_count_pos with (lit "unhappy"); [|exact Hu].
    simpl. tauto.
Qed.

Lemma unhappy_scores_joy_witness :
  let text := lit "I am Unhappy" in
  Spec.blank text = false /\
  Spec.failed (Spec.classify (py_float Sample.no_float)
                 (Sample.unreachable (watson_request text))) = true /\
  contains (lit "unhappy") (ascii_lower text) = true /\
  exists a d f j s dom t',
    emotion_detector ascii_lower Sample.no_float Sample.unreachable text []
    = (inr (Spec.ok_result a d f j s dom), t') /\
    is_zero j = false /\
    is_zero s = false.
Proof.
  cbv zeta. do 3 (split; [reflexivity|]).
  apply (unhappy_scores_joy ascii_lower Sample.no_float Sample.unreachable
           (lit "I am Unhappy") []); reflexivity.
Defined.

(** On every vector of counts with one non-zero entry, that category gets
    exactly 1.0, the others 0.0, and it is the dominant one. *)
Lemma single_count_outcome (c : nat) :
  (1 <= c <= 5)%nat ->
  outcome c 0 0 0 0 = Spec.ok_result one zero zero zero zero (lit "anger") /\
  outcome 0 c 0 0 0 = Spec.ok_result zero one zero zero zero (lit "disgust") /\
  outcome 0 0 c 0 0 = Spec.ok_result zero zero one zero zero (lit "fear") /\
  outcome 0 0 0 c 0 = Spec.ok_result zero zero zero one zero (lit "joy") /\
  outcome 0 0 0 0 c = Spec.ok_result zero zero zero zero one (lit "sadness").
Proof.
  intros [H1 H5]. destruct c as [|c]; [lia|].
  do 5 (destruct c as [|c]; [vm_compute; repeat split|]). lia.
Qed.

(** X10.  On the fallback path, when the keywords that occur all belong to
    one category, that category gets the score 1.0 exactly, every other
    category 0.0, and it is the dominant emotion. *)
Theorem single_category_scores_one (str_lower : pystr -> pystr)
  (str_to_float : pystr -> option float) (remote : request -> Res response)
  (text : pystr) (t : trace) (k : pystr) :
  Spec.blank text = false ->
  Spec.failed (Spec.classify (py_float str_to_float)
                 (remote (watson_request text))) = true ->
  Spec.only_category (str_lower text) k = true ->
  exists r t',
    emotion_detector str_lower str_to_float remote text t = (inr r, t') /\
    Spec.dominant r = Some k /\
    forall k', In k' Spec.names ->
               Spec.score r k' = Some (if PyStr.eqb k' k then one else zero).
Proof.
  intros Hb Hf Ho. rewrite (fallback_paths _ _ _ _ _ Hb Hf).
  unfold on_text. cbv zeta.
  pose proof (keyword_count_le (str_lower text) anger_words) as Ha.
  pose proof (keyword_count_le (str_lower text) disgust_words) as Hd.
  pose proof (keyword_count_le (str_lower text) fear_words) as Hfe.
  pose proof (keyword_count_le (str_lower text) joy_words) as Hj.
  pose proof (keyword_count_le (str_lower text) sadness_words) as Hs.
  change (List.length anger_words) with 5%nat in Ha.
  change (List.length disgust_words) with 3%nat in Hd.
  change (List.length fear_words) with 4%nat in Hfe.
  change (List.length joy_words) with 5%nat in Hj.
  change (List.length sadness_words) with 4%nat in Hs.
  unfold Spec.only_category, Spec.counts in Ho.
  set (ca := Spec.keyword_count (str_lower text) anger_words) in *.
  set (cd := Spec.keyword_count (str_lower text) disgust_words) in *.
  set (cf := Spec.keyword_count (str_lower text) fear_words) in *.
  set (cj := Spec.keyword_count (str_lower text) joy_words) in *.
  set (cs := Spec.keyword_count (str_lower text) sadness_words) in *.
  apply andb_true_iff in Ho as [Hk Ho].
  cbn [existsb Spec.names map] in Hk.
  repeat (apply orb_true_iff in Hk as [Hk | Hk]); try discriminate;
    apply pystr_eqb_eq in Hk; subst k;
    cbn [forallb fst snd] in Ho;
    repeat match goal with
           | H : context [PyStr.eqb (lit ?x) (lit ?y)] |- _ =>
               let b := eval vm_compute in (PyStr.eqb (lit x) (lit y)) in
               change (PyStr.eqb (lit x) (lit y)) with b in H
           end;
    cbv iota in Ho;
    repeat (apply andb_true_iff in Ho as [? Ho]);
    repeat match goal with
           | H : (_ =? 0)%nat = true |- _ => apply Nat.eqb_eq in H; rewrite H
           | H : negb (_ =? 0)%nat = true |- _ =>
               apply negb_true_iff in H; apply Nat.eqb_neq in H
           end.
  - destruct (single_count_outcome ca ltac:(lia)) as (-> & _).
    do 2 eexists. split; [reflexivity|]. split; [reflexivity|].
    intros k' Hin. simpl in Hin.
    repeat destruct Hin as [<- | Hin]; try reflexivity; contradiction.
  - destruct (single_count_outcome cd ltac:(lia)) as (_ & -> & _).
    do 2 eexists. split; [reflexivity|]. split; [reflexivity|].
    intros k' Hin. simpl in Hin.
    repeat destruct Hin as [<- | Hin]; try reflexivity; contradiction.
  - destruct (single_count_outcome cf ltac:(lia)) as (_ & _ & -> & _).
    do 2 eexists. split; [reflexivity|]. split; [reflexivity|].
    intros k' Hin. simpl in Hin.
    repeat destruct Hin as [<- | Hin]; try reflexivity; contradiction.
  - destruct (single_count_outcome cj ltac:(lia)) as (_ & _ & _ & -> & _).
    do 2 eexists. split; [reflexivity|]. split; [reflexivity|].
    intros k' Hin. simpl in Hin.
    repeat destruct Hin as [<- | Hin]; try reflexivity; contradiction.
  - destruct (single_count_outcome cs ltac:(lia)) as (_ & _ & _ & _ & ->).
    do 2 eexists. split; [reflexivity|]. split; [reflexivity|].
    intros k' Hin. simpl in Hin.
    repeat destruct Hin as [<- | Hin]; try reflexivity; contradiction.
Qed.

Lemma single_category_scores_one_witness :
  let text := lit "I am so happy and excited today!" in
  Spec.blank text = false /\
  Spec.failed (Spec.classify (py_float Sample.no_float)
                 (Sample.unreachable (watson_request text))) = true /\
  Spec.only_category (ascii_lower text) (lit "joy") = true /\
  exists r t',
    emotion_detector ascii_lower Sample.no_float Sample.unreachable text []
    = (inr r, t') /\
    Spec.dominant r = Some (lit "joy") /\
    forall k', In k' Spec.names ->
               Spec.score r k'
               = Some (if PyStr.eqb k' (lit "joy") then one else zero).
Proof.
  cbv zeta. do 3 (split; [reflexivity|]).
  apply (single_category_scores_one ascii_lower Sample.no_float
           Sample.unreachable (lit "I am so happy and excited today!") []
           (lit "joy")); reflexivity.
Defined.

Lemma same_keywords_count (a b : pystr) (words : list pystr) :
  (forall w, In w words -> In w Spec.all_words) ->
  Spec.same_keywords a b = true ->
  Spec.keyword_count a words = Spec.keyword_count b words.
Proof.
  intros Hsub Hs. unfold Spec.keyword_count. f_equal.
  apply filter_ext_in. intros w Hw.
  unfold Spec.same_keywords in Hs. rewrite forallb_forall in Hs.
  apply eqb_prop. apply Hs. now apply Hsub.
Qed.

Lemma words_in_all :
  (forall w, In w anger_words -> In w Spec.all_words) /\
  (forall w, In w disgust_words -> In w Spec.all_words) /\
  (forall w, In w fear_words -> In w Spec.all_words) /\
  (forall w, In w joy_words -> In w Spec.all_words) /\
  (forall w, In w sadness_words -> In w Spec.all_words).
Proof.
  unfold Spec.all_words.
  repeat split; intros w Hw; rewrite !in_app_iff; tauto.
Qed.

(** X11.  The heuristic looks only at which keywords occur: two non-blank
    texts in whose lower-cased forms the same keywords occur get the same
    fallback result, however often a keyword is repeated and whatever else
    the texts contain. *)
Theorem fallback_depends_on_keywords_present (str_lower : pystr -> pystr)
  (str_to_float : pystr -> option float) (remote : request -> Res response)
  (text text' : pystr) (t : trace) :
  Spec.blank text = false ->
  Spec.blank text' = false ->
  Spec.failed (Spec.classify (py_float str_to_float)
                 (remote (watson_request text))) = true ->
  Spec.failed (Spec.classify (py_float str_to_float)
                 (remote (watson_request text'))) = true ->
  Spec.same_keywords (str_lower text) (str_lower text') = true ->
  fst (emotion_detector str_lower str_to_float remote text t)
  = fst (emotion_detector str_lower str_to_float remote text' t).
Proof.
  intros Hb Hb' Hf Hf' Hs.
  rewrite (fallback_paths _ _ _ _ _ Hb Hf), (fallback_paths _ _ _ _ _ Hb' Hf').
  cbn [fst]. f_equal. unfold on_text. cbv zeta.
  destruct words_in_all as (Wa & Wd & Wf & Wj & Ws).
  rewrite (same_keywords_count _ _ anger_words Wa Hs).
  rewrite (same_keywords_count _ _ disgust_words Wd Hs).
  rewrite (same_keywords_count _ _ fear_words Wf Hs).
  rewrite (same_keywords_count _ _ joy_words Wj Hs).
  rewrite (same_keywords_count _ _ sadness_words Ws Hs).
  reflexivity.
Qed.

Lemma fallback_depends_on_keywords_present_witness :
  let text := lit "happy" in
  let text' := lit "Happy, HAPPY, happy: what a day" in
  Spec.blank text = false /\
  Spec.blank text' = false /\
  Spec.failed (Spec.classify (py_float Sample.no_float)
                 (Sample.unreachable (watson_request text))) = true /\
  Spec.failed (Spec.classify (py_float Sample.no_float)
                 (Sample.unreachable (watson_request text'))) = true /\
  Spec.same_keywords (ascii_lower text) (ascii_lower text') = true /\
  fst (emotion_detector ascii_lower Sample.no_float Sample.unreachable
         text [])
  = fst (emotion_detector ascii_lower Sample.no_float Sample.unreachable
           text' []).
Proof.
  cbv zeta. do 5 (split; [reflexivity|]).
  apply (fallback_depends_on_keywords_present ascii_lower Sample.no_float
           Sample.unreachable (lit "happy")
           (lit "Happy, HAPPY, happy: what a day") []); reflexivity.
Defined.

(** ** The handler *)

Lemma on_text_ranked (str_lower : pystr -> pystr) (text : pystr) :
  exists a d f j s, on_text str_lower text = ranked (Spec.fields a d f j s).
Proof.
  unfold on_text, outcome. cbv zeta.
  match goal with |- context [(?n =? 0)%nat] => destruct (n =? 0)%nat end.
  - exists (dec 10 100), (dec 5 100), (dec 5 100), (dec 60 100),
      (dec 20 100). reflexivity.
  - do 5 eexists. reflexivity.
Qed.

(** What the handler returns for what the classifier returns. *)
Lemma detect_emotion_respond (str_lower : pystr -> pystr)
  (str_to_float : pystr -> option float) (remote : request -> Res response)
  (py_repr : pyval -> pystr) (form : dict pystr) (raw : pystr) (t : trace)
  (r : result) (t' : trace) :
  lookup form (lit "text") = Some raw ->
  emotion_detector str_lower str_to_float remote (strip raw) t = (inr r, t') ->
  detect_emotion str_lower str_to_float remote py_repr form t
  = (inr (respond py_repr r), t').
Proof.
  intros Hform Hrun.
  destruct (emotion_detector_shape str_lower str_to_float remote
              (strip raw) t) as (r0 & t0 & Hrun0 & Hshape).
  rewrite Hrun in Hrun0. injection Hrun0 as <- <-.
  unfold detect_emotion, form_field, Eff.bind at 1, lift at 1.
  rewrite Hform. cbv zeta. unfold Eff.bind at 1. rewrite Hrun.
  destruct Hshape as [-> | (a & d & f & j & s & ->)].
  - reflexivity.
  - rewrite ranked_fields. unfold respond.
    change (Spec.rejected (Spec.ok_result a d f j s _)) with false.
    cbv iota. rewrite <- render_sentence. reflexivity.
Qed.

Lemma sentence_not_invalid (str : pyval -> pystr)
  (a d f j s dom : pyval) :
  Spec.sentence str a d f j s dom <> INVALID_TEXT.
Proof.
  intros H. apply (f_equal (@hd N 0%N)) in H. vm_compute in H. discriminate.
Qed.

Lemma respond_invalid_iff (py_repr : pyval -> pystr) (r : result) :
  respond py_repr r = INVALID_TEXT <-> Spec.rejected r = true.
Proof.
  unfold respond. destruct (Spec.rejected r); split; try reflexivity.
  - intros H. now apply sentence_not_invalid in H.
  - discriminate.
Qed.

(** X12.  When the form has no field [text], the handler raises the
    bad-request key error of the form lookup; the classifier is not called
    and no remote call is made. *)
Theorem missing_form_field_raises (str_lower : pystr -> pystr)
  (str_to_float : pystr -> option float) (remote : request -> Res response)
  (py_repr : pyval -> pystr) (form : dict pystr) (t : trace) :
  lookup form (lit "text") = None ->
  detect_emotion str_lower str_to_float remote py_repr form t
  = (inl BadRequestKeyError, t).
Proof.
  intros Hform. unfold detect_emotion, form_field, Eff.bind at 1, lift at 1.
  now rewrite Hform.
Qed.

Lemma missing_form_field_raises_witness :
  lookup [(lit "comment", lit "I am happy")] (lit "text") = None /\
  detect_emotion ascii_lower Sample.no_float Sample.unreachable
    Sample.repr_any [(lit "comment", lit "I am happy")] []
  = (inl BadRequestKeyError, []).
Proof.
  split; [reflexivity|].
  apply (missing_form_field_raises ascii_lower Sample.no_float
           Sample.unreachable Sample.repr_any
           [(lit "comment", lit "I am happy")] []).
  reflexivity.
Defined.

(** X13.  When the field [text] is empty or holds only whitespace, the
    handler answers "Invalid text! Please try again!" and makes no remote
    call. *)
Theorem blank_form_text_invalid (str_lower : pystr -> pystr)
  (str_to_float : pystr -> option float) (remote : request -> Res response)
  (py_repr : pyval -> pystr) (form : dict pystr) (raw : pystr) (t : trace) :
  lookup form (lit "text") = Some raw ->
  Spec.blank raw = true ->
  detect_emotion str_lower str_to_float remote py_repr form t
  = (inr (lit "Invalid text! Please try again!"), t).
Proof.
  intros Hform Hb.
  apply (detect_emotion_respond _ _ _ _ _ _ _ _none_result t Hform).
  now rewrite emotion_detector_cases, strip_idempotent_blank, Hb.
Qed.

Lemma blank_form_text_invalid_witness :
  lookup [(lit "text", lit "  ")] (lit "text") = Some (lit "  ") /\
  Spec.blank (lit "  ") = true /\
  detect_emotion ascii_lower Sample.no_float Sample.unreachable
    Sample.repr_any [(lit "text", lit "  ")] []
  = (inr (lit "Invalid text! Please try again!"), []).
Proof.
  split; [reflexivity|]. split; [reflexivity|].
  apply (blank_form_text_invalid ascii_lower Sample.no_float
           Sample.unreachable Sample.repr_any [(lit "text", lit "  ")]
           (lit "  ") []); reflexivity.
Defined.

(** X14.  With a field [text], the handler never raises, and it answers
    "Invalid text! Please try again!" exactly when the text is blank or the
    remote service answered the stripped text with status 400; in every
    other case, in particular when the remote call failed or returned
    another status, the classifier returned an ok result and the handler
    answers with the sentence that lists its five scores in the order
    anger, disgust, fear, joy, sadness and then its dominant emotion. *)
Theorem invalid_text_iff (str_lower : pystr -> pystr)
  (str_to_float : pystr -> option float) (remote : request -> Res response)
  (py_repr : pyval -> pystr) (form : dict pystr) (raw : pystr) (t : trace) :
  lookup form (lit "text") = Some raw ->
  exists r out t',
    emotion_detector str_lower str_to_float remote (strip raw) t
    = (inr r, t') /\
    detect_emotion str_lower str_to_float remote py_repr form t
    = (inr out, t') /\
    (out = lit "Invalid text! Please try again!" <->
     Spec.blank raw = true \/
     Spec.classify (py_float str_to_float)
       (remote (watson_request (strip raw))) = Spec.BadRequest) /\
    (out <> lit "Invalid text! Please try again!" ->
     exists a d f j s dom,
       r = Spec.ok_result a d f j s dom /\
       out = lit "For the given statement, the system response is "
             ++ lit "'anger': " ++ py_str py_repr (PFloat a)
             ++ lit ", 'disgust': " ++ py_str py_repr (PFloat d)
             ++ lit ", 'fear': " ++ py_str py_repr (PFloat f)
             ++ lit ", 'joy': " ++ py_str py_repr (PFloat j)
             ++ lit " and 'sadness': " ++ py_str py_repr (PFloat s)
             ++ lit ". The dominant emotion is " ++ dom ++ lit ".").
Proof.
  intros Hform.
  destruct (emotion_detector_shape str_lower str_to_float remote
              (strip raw) t) as (r & t' & Hrun & Hshape).
  exists r, (respond py_repr r), t'.
  split; [exact Hrun|].
  split; [exact (detect_emotion_respond _ _ _ _ _ _ _ _ _ Hform Hrun)|].
  change (lit "Invalid text! Please try again!") with INVALID_TEXT.
  split.
  - rewrite respond_invalid_iff.
    rewrite emotion_detector_cases, strip_idempotent_blank in Hrun.
    destruct (Spec.blank raw).
    + injection Hrun as <- <-. split; [now left | reflexivity].
    + cbv zeta in Hrun.
      destruct (Spec.classify (py_float str_to_float)
                  (remote (watson_request (strip raw)))) as [| |sc| |] eqn:Hc;
        injection Hrun as <- <-.
      * destruct (on_text_ranked str_lower (strip raw))
          as (a & d & f & j & s & ->).
        split; [discriminate | intros [H | H]; discriminate].
      * split; [now right | reflexivity].
      * destruct (classify_success_fields _ _ _ Hc)
          as (a & d & f & j & s & ->).
        split; [discriminate | intros [H | H]; discriminate].
      * destruct (on_text_ranked str_lower (strip raw))
          as (a & d & f & j & s & ->).
        split; [discriminate | intros [H | H]; discriminate].
      * destruct (on_text_ranked str_lower (strip raw))
          as (a & d & f & j & s & ->).
        split; [discriminate | intros [H | H]; discriminate].
  - intros Hout.
    destruct Hshape as [-> | (a & d & f & j & s & ->)].
    + exfalso. apply Hout. reflexivity.
    + rewrite ranked_fields. do 6 eexists. split; reflexivity.
Qed.

Lemma invalid_text_iff_witness :
  let form := [(lit "text", lit " so sad ")] in
  lookup form (lit "text") = Some (lit " so sad ") /\
  exists r out t',
    emotion_detector ascii_lower Sample.no_float Sample.unreachable
      (strip (lit " so sad ")) []
    = (inr r, t') /\
    detect_emotion ascii_lower Sample.no_float Sample.unreachable
      Sample.repr_any form []
    = (inr out, t') /\
    (out = lit "Invalid text! Please try again!" <->
     Spec.blank (lit " so sad ") = true \/
     Spec.classify (py_float Sample.no_float)
       (Sample.unreachable (watson_request (strip (lit " so sad "))))
     = Spec.BadRequest) /\
    (out <> lit "Invalid text! Please try again!" ->
     exists a d f j s dom,
       r = Spec.ok_result a d f j s dom /\
       out = lit "For the given statement, the system response is "
             ++ lit "'anger': " ++ py_str Sample.repr_any (PFloat a)
             ++ lit ", 'disgust': " ++ py_str Sample.repr_any (PFloat d)
             ++ lit ", 'fear': " ++ py_str Sample.repr_any (PFloat f)
             ++ lit ", 'joy': " ++ py_str Sample.repr_any (PFloat j)
             ++ lit " and 'sadness': " ++ py_str Sample.repr_any (PFloat s)
             ++ lit ". The dominant emotion is " ++ dom ++ lit ".").
Proof.
  cbv zeta. split; [reflexivity|].
  apply (invalid_text_iff ascii_lower Sample.no_float Sample.unreachable
           Sample.repr_any [(lit "text", lit " so sad ")]
           (lit " so sad ") []).
  reflexivity.
Defined.

(** X15.  For a non-blank text the handler makes exactly one remote call,
    and the text it sends is the form text with its leading and trailing
    whitespace removed. *)
Theorem handler_posts_stripped_text (str_lower : pystr -> pystr)
  (str_to_float : pystr -> option float) (remote : request -> Res response)
  (py_repr : pyval -> pystr) (form : dict pystr) (raw : pystr) (t : trace) :
  lookup form (lit "text") = Some raw ->
  Spec.blank raw = false ->
  exists out rest,
    detect_emotion str_lower str_to_float remote py_repr form t
    = (inr out,
       t ++ EvPost
              (mkRequest WATSON_URL WATSON_HEADERS
                 (PDict [(lit "raw_document",
                          PDict [(lit "text", PStr (strip raw))])]) 8)
            :: rest) /\
    remote_calls rest = 0%nat.
Proof.
  intros Hform Hb.
  assert (Hrun : exists r rest,
             emotion_detector str_lower str_to_float remote (strip raw) t
             = (inr r, t ++ EvPost (watson_request (strip raw)) :: rest) /\
             remote_calls rest = 0%nat).
  { rewrite emotion_detector_cases, strip_idempotent_blank, Hb. cbv zeta.
    destruct (Spec.classify (py_float str_to_float)
                (remote (watson_request (strip raw))));
      do 2 eexists; (split; [reflexivity|]); reflexivity. }
  destruct Hrun as (r & rest & Hrun & Hrest).
  exists (respond py_repr r), rest. split; [|exact Hrest].
  exact (detect_emotion_respond _ _ _ _ _ _ _ _ _ Hform Hrun).
Qed.

Lemma handler_posts_stripped_text_witness :
  lookup [(lit "text", lit "  I am glad ")] (lit "text")
  = Some (lit "  I am glad ") /\
  Spec.blank (lit "  I am glad ") = false /\
  exists out rest,
    detect_emotion ascii_lower Sample.no_float Sample.unreachable
      Sample.repr_any [(lit "text", lit "  I am glad ")] []
    = (inr out,
       [] ++ EvPost
               (mkRequest WATSON_URL WATSON_HEADERS
                  (PDict [(lit "raw_document",
                           PDict [(lit "text",
                                   PStr (strip (lit "  I am glad ")))])]) 8)
             :: rest) /\
    remote_calls rest = 0%nat.
Proof.
  split; [reflexivity|]. split; [reflexivity|].
  apply (handler_posts_stripped_text ascii_lower Sample.no_float
           Sample.unreachable Sample.repr_any
           [(lit "text", lit "  I am glad ")] (lit "  I am glad ") []);
    reflexivity.
Defined.

(** ** More on the remote answer *)

(** X16.  When the remote call succeeds and parses, the input text has no
    influence on the result beyond the request: two non-blank texts that
    receive the same response get the same result, whatever keywords they
    contain. *)
Theorem remote_success_ignores_keywords (str_lower : pystr -> pystr)
  (str_to_float : pystr -> option float) (remote : request -> Res response)
  (text text' : pystr) (t : trace) (scores : dict float) :
  Spec.blank text = false ->
  Spec.blank text' = false ->
  Spec.classify (py_float str_to_float) (remote (watson_request text))
  = Spec.Success scores ->
  Spec.classify (py_float str_to_float) (remote (watson_request text'))
  = Spec.Success scores ->
  fst (emotion_detector str_lower str_to_float remote text t)
  = fst (emotion_detector str_lower str_to_float remote text' t) /\
  heuristic_calls (snd (emotion_detector str_lower str_to_float remote text t))
  = heuristic_calls t.
Proof.
  intros Hb Hb' Hc Hc'. rewrite !emotion_detector_cases, Hb, Hb'. cbv zeta.
  rewrite Hc, Hc'. split; [reflexivity|]. cbn [snd].
  rewrite heuristic_calls_app. rewrite heuristic_calls_post. lia.
Qed.

Lemma remote_success_ignores_keywords_witness :
  let remote :=
    Sample.answers 200
      (inr (Sample.payload [(lit "joy", PFloat (dec 9 10))])) in
  Spec.blank (lit "I hate this") = false /\
  Spec.blank (lit "I love this") = false /\
  Spec.classify (py_float Sample.no_float)
    (remote (watson_request (lit "I hate this")))
  = Spec.Success (Spec.fields zero zero zero (dec 9 10) zero) /\
  Spec.classify (py_float Sample.no_float)
    (remote (watson_request (lit "I love this")))
  = Spec.Success (Spec.fields zero zero zero (dec 9 10) zero) /\
  fst (emotion_detector ascii_lower Sample.no_float remote
         (lit "I hate this") [])
  = fst (emotion_detector ascii_lower Sample.no_float remote
           (lit "I love this") []) /\
  heuristic_calls
    (snd (emotion_detector ascii_lower Sample.no_float remote
            (lit "I hate this") []))
  = heuristic_calls [].
Proof.
  cbv zeta. do 4 (split; [reflexivity|]).
  apply (remote_success_ignores_keywords ascii_lower Sample.no_float
           (Sample.answers 200
              (inr (Sample.payload [(lit "joy", PFloat (dec 9 10))])))
           (lit "I hate this") (lit "I love this") []
           (Spec.fields zero zero zero (dec 9 10) zero)); reflexivity.
Defined.

Lemma classify_200 (to_float : pyval -> Res float) (body : Res pyval) :
  Spec.classify to_float (inr (mkResponse 200 body))
  = match Spec.payload_scores to_float body with
    | Some scores => Spec.Success scores
    | None => Spec.ParseFailure
    end.
Proof. reflexivity. Qed.

(** X17.  One named emotion whose value [float] cannot convert (a null, a
    list, an object, a string that is no number, an integer out of range)
    discards the whole remote answer, the valid scores included: the result
    is the one of the keyword heuristic. *)
Theorem unconvertible_value_falls_back (str_lower : pystr -> pystr)
  (str_to_float : pystr -> option float) (remote : request -> Res response)
  (text : pystr) (t : trace) (body : pyval) (em : dict pyval) :
  Spec.blank text = false ->
  remote (watson_request text) = inr (mkResponse 200 (inr body)) ->
  Spec.emotions_of body = Some em ->
  existsb (fun k => match Spec.supplied (py_float str_to_float) em k with
                    | None => true
                    | Some _ => false
                    end) Spec.names = true ->
  exists r t',
    emotion_detector str_lower str_to_float remote text t = (inr r, t') /\
    heuristic_calls t' = S (heuristic_calls t) /\
    forall (remote' : request -> Res response) (e : exn),
      remote' (watson_request text) = inl e ->
      fst (emotion_detector str_lower str_to_float remote' text t) = inr r.
Proof.
  intros Hb Hr He Hn.
  assert (Hc : Spec.classify (py_float str_to_float)
                 (remote (watson_request text)) = Spec.ParseFailure).
  { rewrite Hr, classify_200. unfold Spec.payload_scores. rewrite He.
    cbn [existsb Spec.names map] in Hn.
    destruct (Spec.supplied (py_float str_to_float) em (lit "anger"));
      [|reflexivity].
    destruct (Spec.supplied (py_float str_to_float) em (lit "disgust"));
      [|reflexivity].
    destruct (Spec.supplied (py_float str_to_float) em (lit "fear"));
      [|reflexivity].
    destruct (Spec.supplied (py_float str_to_float) em (lit "joy"));
      [|reflexivity].
    destruct (Spec.supplied (py_float str_to_float) em (lit "sadness"));
      [|reflexivity].
    discriminate. }
  eexists _, _. rewrite emotion_detector_cases, Hb. cbv zeta. rewrite Hc.
  split; [reflexivity|]. split.
  - rewrite heuristic_calls_app, heuristic_calls_both. lia.
  - intros remote' e Hr'. rewrite emotion_detector_cases, Hb. cbv zeta.
    now rewrite Hr'.
Qed.

Lemma unconvertible_value_falls_back_witness :
  let em := [(lit "joy", PFloat (dec 9 10)); (lit "anger", PNone)] in
  let remote := Sample.answers 200 (inr (Sample.payload em)) in
  Spec.blank (lit "I am sad") = false /\
  remote (watson_request (lit "I am sad"))
  = inr (mkResponse 200 (inr (Sample.payload em))) /\
  Spec.emotions_of (Sample.payload em) = Some em /\
  existsb (fun k => match Spec.supplied (py_float Sample.no_float) em k with
                    | None => true
                    | Some _ => false
                    end) Spec.names = true /\
  exists r t',
    emotion_detector ascii_lower Sample.no_float remote (lit "I am sad") []
    = (inr r, t') /\
    heuristic_calls t' = S (heuristic_calls []) /\
    forall (remote' : request -> Res response) (e : exn),
      remote' (watson_request (lit "I am sad")) = inl e ->
      fst (emotion_detector ascii_lower Sample.no_float remote'
             (lit "I am sad") []) = inr r.
Proof.
  cbv zeta. do 4 (split; [reflexivity|]).
  apply (unconvertible_value_falls_back ascii_lower Sample.no_float
           (Sample.answers 200
              (inr (Sample.payload
                      [(lit "joy", PFloat (dec 9 10)); (lit "anger", PNone)])))
           (lit "I am sad") []
           (Sample.payload
              [(lit "joy", PFloat (dec 9 10)); (lit "anger", PNone)])
           [(lit "joy", PFloat (dec 9 10)); (lit "anger", PNone)]);
    reflexivity.
Defined.

(** X18.  Only the first prediction of the payload is read: two 200
    responses whose [emotionPredictions] lists start with the same
    prediction give the same result, whatever follows in the lists. *)
Theorem only_first_prediction_counts (str_lower : pystr -> pystr)
  (str_to_float : pystr -> option float)
  (remote remote' : request -> Res response)
  (text : pystr) (t : trace) (top top' : dict pyval) (first : pyval)
  (others others' : list pyval) :
  remote (watson_request text) = inr (mkResponse 200 (inr (PDict top))) ->
  remote' (watson_request text) = inr (mkResponse 200 (inr (PDict top'))) ->
  lookup top (lit "emotionPredictions") = Some (PList (first :: others)) ->
  lookup top' (lit "emotionPredictions") = Some (PList (first :: others')) ->
  emotion_detector str_lower str_to_float remote text t
  = emotion_detector str_lower str_to_float remote' text t.
Proof.
  intros Hr Hr' Hl Hl'. rewrite !emotion_detector_cases.
  destruct (Spec.blank text); [reflexivity|]. cbv zeta.
  rewrite Hr, Hr', !classify_200. unfold Spec.payload_scores, Spec.emotions_of.
  now rewrite Hl, Hl'.
Qed.

Lemma only_first_prediction_counts_witness :
  let first := PDict [(lit "emotion", PDict [(lit "fear", PFloat one)])] in
  let second := PDict [(lit "emotion", PDict [(lit "joy", PFloat one)])] in
  let top := [(lit "emotionPredictions", PList [first; second])] in
  let top' := [(lit "emotionPredictions", PList [first])] in
  Sample.answers 200 (inr (PDict top)) (watson_request (lit "hello"))
  = inr (mkResponse 200 (inr (PDict top))) /\
  Sample.answers 200 (inr (PDict top')) (watson_request (lit "hello"))
  = inr (mkResponse 200 (inr (PDict top'))) /\
  lookup top (lit "emotionPredictions") = Some (PList [first; second]) /\
  lookup top' (lit "emotionPredictions") = Some (PList [first]) /\
  emotion_detector ascii_lower Sample.no_float
    (Sample.answers 200 (inr (PDict top))) (lit "hello") []
  = emotion_detector ascii_lower Sample.no_float
      (Sample.answers 200 (inr (PDict top'))) (lit "hello") [].
Proof.
  cbv zeta. do 4 (split; [reflexivity|]).
  apply (only_first_prediction_counts ascii_lower Sample.no_float
           (Sample.answers 200
              (inr (PDict
                      [(lit "emotionPredictions",
                        PList
                          [PDict [(lit "emotion",
                                   PDict [(lit "fear", PFloat one)])];
                           PDict [(lit "emotion",
                                   PDict [(lit "joy", PFloat one)])]])])))
           (Sample.answers 200
              (inr (PDict
                      [(lit "emotionPredictions",
                        PList
                          [PDict [(lit "emotion",
                                   PDict [(lit "fear", PFloat one)])]])])))
           (lit "hello") []
           [(lit "emotionPredictions",
             PList
               [PDict [(lit "emotion", PDict [(lit "fear", PFloat one)])];
                PDict [(lit "emotion", PDict [(lit "joy", PFloat one)])]])]
           [(lit "emotionPredictions",
             PList
               [PDict [(lit "emotion", PDict [(lit "fear", PFloat one)])]])]
           (PDict [(lit "emotion", PDict [(lit "fear", PFloat one)])])
           [PDict [(lit "emotion", PDict [(lit "joy", PFloat one)])]]
           []); reflexivity.
Defined.

(** X19.  An empty [emotionPredictions] list, or a body without that key,
    makes the parse raise inside the [try]; the detector then runs the
    keyword heuristic once and returns its result, the very result it
    returns for the same text when the remote call raises, with status
    200. *)
Theorem no_prediction_falls_back (str_lower : pystr -> pystr)
  (str_to_float : pystr -> option float) (remote : request -> Res response)
  (text : pystr) (t : trace) (top : dict pyval) :
  Spec.blank text = false ->
  remote (watson_request text) = inr (mkResponse 200 (inr (PDict top))) ->
  lookup top (lit "emotionPredictions") = Some (PList []) \/
  lookup top (lit "emotionPredictions") = None ->
  (exists e, parse_response str_to_float (mkResponse 200 (inr (PDict top)))
             = inl e) /\
  exists r t',
    emotion_detector str_lower str_to_float remote text t = (inr r, t') /\
    Spec.ok r = true /\
    heuristic_calls t' = S (heuristic_calls t) /\
    rule_based_scores str_lower text = inr r /\
    forall (remote' : request -> Res response) (e : exn),
      remote' (watson_request text) = inl e ->
      fst (emotion_detector str_lower str_to_float remote' text t) = inr r.
Proof.
  intros Hb Hr Hl. split.
  - unfold parse_response. cbn [json rbind subscript_str]. unfold getitem.
    destruct Hl as [-> | ->]; eexists; reflexivity.
  - assert (Hc : Spec.classify (py_float str_to_float)
                   (remote (watson_request text)) = Spec.ParseFailure).
    { rewrite Hr, classify_200. unfold Spec.payload_scores, Spec.emotions_of.
      destruct Hl as [-> | ->]; reflexivity. }
    eexists _, _. rewrite emotion_detector_cases, Hb. cbv zeta. rewrite Hc.
    split; [reflexivity|]. split.
    + destruct (on_text_ranked str_lower text) as (a & d & f & j & s & ->).
      reflexivity.
    + split; [rewrite heuristic_calls_app, heuristic_calls_both; lia|].
      split; [apply rule_based_scores_outcome|].
      intros remote' e Hr'. rewrite emotion_detector_cases, Hb. cbv zeta.
      now rewrite Hr'.
Qed.

Lemma no_prediction_falls_back_witness :
  let top := [(lit "emotionPredictions", PList [])] in
  Spec.blank (lit "I am mad") = false /\
  Sample.answers 200 (inr (PDict top)) (watson_request (lit "I am mad"))
  = inr (mkResponse 200 (inr (PDict top))) /\
  (lookup top (lit "emotionPredictions") = Some (PList []) \/
   lookup top (lit "emotionPredictions") = None) /\
  (exists e, parse_response Sample.no_float
               (mkResponse 200 (inr (PDict top))) = inl e) /\
  exists r t',
    emotion_detector ascii_lower Sample.no_float
      (Sample.answers 200 (inr (PDict top))) (lit "I am mad") []
    = (inr r, t') /\
    Spec.ok r = true /\
    heuristic_calls t' = S (heuristic_calls []) /\
    rule_based_scores ascii_lower (lit "I am mad") = inr r /\
    forall (remote' : request -> Res response) (e : exn),
      remote' (watson_request (lit "I am mad")) = inl e ->
      fst (emotion_detector ascii_lower Sample.no_float remote'
             (lit "I am mad") []) = inr r.
Proof.
  cbv zeta. do 2 (split; [reflexivity|]). split; [left; reflexivity|].
  apply (no_prediction_falls_back ascii_lower Sample.no_float
           (Sample.answers 200
              (inr (PDict [(lit "emotionPredictions", PList [])])))
           (lit "I am mad") []
           [(lit "emotionPredictions", PList [])]);
    [reflexivity | reflexivity | left; reflexivity].
Defined.
